(** * Declaration utilities of the analyzer (declarationUtils.ts)

    A shallow embedding of the declaration-resolution functions
    [getDeclarationsForNameNode], [resolveAliasDeclaration],
    [getTypeForDeclaration], [hasTypeForDeclaration], [areDeclarationsSame],
    [transformTypeForPossibleEnumClass], [getInferredTypeOfDeclaration] and
    [_applyLoaderActionsToModuleType], followed by the properties the
    specification states about them.

    Objects that the TypeScript code compares by reference ([===]) live in
    stores: declarations are addressed by a [Ref], parse nodes by a [NodeId].
    JavaScript [Map]s that are only read by key or written key by key are
    finite maps. *)

From stdpp Require Import gmap strings list fin_maps.

Set Default Proof Using "Type".
#[local] Set Warnings "-register-all".
#[local] Open Scope string_scope.
#[local] Open Scope list_scope.

(** ** JavaScript truthiness of an optional string

    [if (s)] on a [string | undefined] passes for a present, non-empty
    string only. *)
Definition truthy (s : option string) : option string :=
  match s with
  | Some v => if String.eqb v "" then None else Some v
  | None => None
  end.

(** ** Parse tree (parser/parseNodes.ts, consumed) *)

Definition NodeId := nat.

Module ParseNodeType.
Inductive t :=
| Name | ImportAs | ImportFromAs | MemberAccess | ModuleName | StringList
| Parameter_ | Class_ | Function_ | Other.

#[global] Instance eq_dec : EqDecision t.
Proof. solve_decision. Defined.
End ParseNodeType.

(** A parse node: the children its node type carries, and its parent
    link.  [ImportAsNode] is the clause [import X as Y] and
    [ImportFromAsNode] the clause [X as Y] of [from M import X as Y]; the
    module name of the former is a [ModuleNameNode], whose parts are the
    name nodes. *)
Inductive ParseNodeKind :=
| NameNode (nameToken : string)
| ImportAsNode (module : NodeId) (alias : option NodeId)
| ImportFromAsNode (name : NodeId) (alias : option NodeId)
| MemberAccessNode (leftExpression : NodeId) (memberName : NodeId)
| ModuleNameNode (nameParts : list NodeId)
| StringListNode (typeAnnotation : option NodeId)
| ParameterNode (name : option NodeId) (typeAnnotation : option NodeId)
| ClassNode (name : NodeId)
| FunctionNode (name : NodeId)
| OtherNode.

Record ParseNode := mkParseNode {
  shape : ParseNodeKind;
  parent : option NodeId
}.

Definition nodeType (n : ParseNode) : ParseNodeType.t :=
  match shape n with
  | NameNode _ => ParseNodeType.Name
  | ImportAsNode _ _ => ParseNodeType.ImportAs
  | ImportFromAsNode _ _ => ParseNodeType.ImportFromAs
  | MemberAccessNode _ _ => ParseNodeType.MemberAccess
  | ModuleNameNode _ => ParseNodeType.ModuleName
  | StringListNode _ => ParseNodeType.StringList
  | ParameterNode _ _ => ParseNodeType.Parameter_
  | ClassNode _ => ParseNodeType.Class_
  | FunctionNode _ => ParseNodeType.Function_
  | OtherNode => ParseNodeType.Other
  end.

(** Property reads that the code does without a test of the node type; a
    property the node does not carry reads as [undefined]. *)
Definition nameTokenValue (n : ParseNode) : string :=
  match shape n with
  | NameNode v => v
  | _ => ""
  end.

Definition typeAnnotationOf (n : ParseNode) : option NodeId :=
  match shape n with
  | StringListNode ta => ta
  | ParameterNode _ ta => ta
  | _ => None
  end.

Definition nameOf (n : ParseNode) : option NodeId :=
  match shape n with
  | ImportFromAsNode nm _ => Some nm
  | ParameterNode nm _ => nm
  | ClassNode nm => Some nm
  | FunctionNode nm => Some nm
  | _ => None
  end.

(** ** Declarations (analyzer/declaration.ts, consumed) *)

Definition Ref := nat.

Record Position := mkPosition { line : nat; column : nat }.
Record Range := mkRange { start : Position; end_ : Position }.

(** common/diagnostic.ts [getEmptyRange]. *)
Definition getEmptyRange : Range :=
  mkRange (mkPosition 0 0) (mkPosition 0 0).

Module DeclarationType.
Inductive t :=
| BuiltIn | Variable_ | Parameter_ | Function_ | Method | Class_ | Alias.

#[global] Instance eq_dec : EqDecision t.
Proof. solve_decision. Defined.
End DeclarationType.

(** The loader actions of a package import: a module path and the
    submodules the import implicitly exposes. *)
Inductive ModuleLoaderActions := mkModuleLoaderActions {
  la_path : option string;
  la_implicitImports : gmap string ModuleLoaderActions
}.

Record ClassDetails := mkClassDetails { cd_name : string; cd_flags : N }.
Record ClassType := mkClassType { details : ClassDetails }.

(** ** Types and symbols (analyzer/types.ts, analyzer/symbol.ts, consumed) *)
Inductive Type_ :=
| UnknownTy
| ClassTy (classType : ClassType)
| ObjectTy (classType : ClassType)
| FunctionTy (fnName : string)
| OverloadedFunctionTy (overloads : list Type_)
| ModuleTy (fields : gmap string Symbol) (loaderFields : gmap string Symbol)
           (docString : option string)
| UnionTy (subtypes : list Type_)
with Symbol :=
| mkSymbol (flags : N) (declarations : list Ref) (synthesizedType : option Type_).

(** [Symbol.getDeclarations]: the declarations of the symbol, in source
    order. *)
Definition getDeclarations (s : Symbol) : list Ref :=
  match s with mkSymbol _ ds _ => ds end.

Module SymbolFlags.
Definition None_ : N := 0%N.
End SymbolFlags.

(** Modelled from the spec: [Symbol.createWithType] is in symbol.ts, which
    is not among the sources; the spec (4.4) says the built type is
    "wrap[ped] in a Symbol": a symbol with that type and no declaration. *)
Definition createWithType (flags : N) (type : Type_) : Symbol :=
  mkSymbol flags [] (Some type).

(** Modelled from the spec: [ModuleType.create], [ObjectType.create] and
    [UnknownType.create] are in types.ts, which is not among the sources;
    the spec (3, 4.4) has "a new empty Module type" with [fields],
    [loaderFields] and [docString], [Object{class}] and [Unknown]. *)
Module ModuleType.
Definition create : Type_ := ModuleTy ∅ ∅ None.
End ModuleType.

Module ObjectType.
Definition create (c : ClassType) : Type_ := ObjectTy c.
End ObjectType.

Module UnknownType.
Definition create : Type_ := UnknownTy.
End UnknownType.

Record ImportLookupResult := mkImportLookupResult {
  symbolTable : gmap string Symbol;
  ilr_docString : option string
}.

Definition ImportLookup := string -> option ImportLookupResult.

(** A declaration object: the fields of its kind, and the [path] and
    [range] every declaration carries.  [submoduleFallback] refers to
    another declaration object. *)
Inductive DeclarationKind :=
| BuiltInDeclaration (declaredType : option Type_)
| ClassDeclaration (node : NodeId)
| FunctionDeclaration (node : NodeId)
| MethodDeclaration (node : NodeId)
| ParameterDeclaration (node : NodeId)
| VariableDeclaration (node : NodeId) (typeAnnotationNode : option NodeId)
                      (isConstant : bool)
| AliasDeclaration (symbolName : option string) (submoduleFallback : option Ref)
                   (implicitImports : gmap string ModuleLoaderActions).

Record Declaration := mkDeclaration {
  kind : DeclarationKind;
  path : option string;
  range : Range
}.

(** The read of [symbolName], [undefined] on a declaration without it. *)
Definition symbolName (d : Declaration) : option string :=
  match kind d with
  | AliasDeclaration symbolName _ _ => symbolName
  | _ => None
  end.

(** The [type] tag of a declaration. *)
Definition type (d : Declaration) : DeclarationType.t :=
  match kind d with
  | BuiltInDeclaration _ => DeclarationType.BuiltIn
  | ClassDeclaration _ => DeclarationType.Class_
  | FunctionDeclaration _ => DeclarationType.Function_
  | MethodDeclaration _ => DeclarationType.Method
  | ParameterDeclaration _ => DeclarationType.Parameter_
  | VariableDeclaration _ _ _ => DeclarationType.Variable_
  | AliasDeclaration _ _ _ => DeclarationType.Alias
  end.

(** The declaration store: [deref] reads the object at an address, and
    [nextRef] is the address the next allocated object gets. *)
Record Heap := mkHeap {
  deref : Ref -> Declaration;
  nextRef : Ref
}.

Definition alloc (h : Heap) (d : Declaration) : Ref * Heap :=
  (nextRef h,
   mkHeap (fun r => if decide (r = nextRef h) then d else deref h r)
          (S (nextRef h))).

(** ** External collaborators

    The analyzer modules that the declaration utilities call but that are
    not part of these sources: the parse tree, the side tables of
    analyzerNodeInfo.ts, the scope lookup of scopeUtils.ts, and the helpers
    of parseTreeUtils.ts, typeUtils.ts and types.ts.  They are taken as
    given; nothing is assumed about what they return. *)

Module ClassMemberLookupFlags.
Inductive t := Default | DeclaredTypesOnly.
End ClassMemberLookupFlags.

Record ClassMember := mkClassMember { cm_symbol : Symbol }.
Record SymbolWithScope := mkSymbolWithScope { sws_symbol : Symbol }.
Record ImportResult := mkImportResult { resolvedPaths : list string }.
Definition ScopeId := nat.

Record Externals := mkExternals {
  tree : NodeId -> ParseNode;
  getExpressionType : NodeId -> option Type_;
  getImportInfo : NodeId -> option ImportResult;
  getScopeForNode : NodeId -> option ScopeId;
  lookUpSymbolRecursive : ScopeId -> string -> option SymbolWithScope;
  getEnclosingClass : NodeId -> bool -> option NodeId;
  isEnumClass : ClassType -> bool;
  isBuiltIn : ClassType -> bool;
  convertClassToObject : Type_ -> Type_;
  lookUpClassMember :
    Type_ -> string -> ImportLookup -> ClassMemberLookupFlags.t -> option ClassMember;
  lookUpObjectMember :
    Type_ -> string -> ImportLookup -> ClassMemberLookupFlags.t -> option ClassMember;
  getField : Type_ -> string -> option Symbol
}.

(** ** Outcomes

    A JavaScript call either returns or throws. *)
Inductive Completion (A : Type) :=
| Normal (a : A)
| Throw.
Arguments Normal {A} a.
Arguments Throw {A}.

#[global] Instance Completion_ret : MRet Completion := fun _ a => Normal a.
#[global] Instance Completion_bind : MBind Completion := fun _ _ k c =>
  match c with
  | Normal a => k a
  | Throw => Throw
  end.

(** What a completed call of [resolveAliasDeclaration] did: the value it
    returned, the number of iterations of the [while] loop it ran (those of
    the recursive call on a submodule fallback included), the paths it
    passed to [importLookup], in call order, and whether it left through
    the circularity check. *)
Record Run := mkRun {
  value : option Ref;
  iterations : nat;
  lookups : list string;
  cycleDetected : bool
}.

(** One more iteration ran before [r], with a possible call of
    [importLookup]. *)
Definition tick (looked : option string) (r : Run) : Run :=
  mkRun (value r) (S (iterations r)) (option_list looked ++ lookups r)
        (cycleDetected r).

(** What one pass through the loop body decides, up to the assignment
    [curDeclaration = declarations[declarations.length - 1]]. *)
Inductive Step :=
| StepReturn (result : option Ref)
| StepFallback (fallback : Ref)
| StepAdvance (next : Ref).

Section DeclarationUtils.

Variable X : Externals.
Variable h : Heap.

(** *** hasTypeForDeclaration *)
Definition hasTypeForDeclaration (declaration : Declaration) : bool :=
  match kind declaration with
  | BuiltInDeclaration _
  | ClassDeclaration _
  | FunctionDeclaration _
  | MethodDeclaration _ => true
  | ParameterDeclaration node =>
      bool_decide (is_Some (typeAnnotationOf (tree X node)))
  | VariableDeclaration _ typeAnnotationNode _ =>
      bool_decide (is_Some typeAnnotationNode)
  | AliasDeclaration _ _ _ => false
  end.

(** Modelled from the spec: [Symbol.getTypedDeclarations] is in symbol.ts,
    which is not among the sources; the spec (3) says a Symbol "exposes two
    views: all declarations, and the subsequence with an explicit/declared
    type", the predicate being [hasTypeForDeclaration]. *)
Definition getTypedDeclarations (s : Symbol) : list Ref :=
  filter (fun r => hasTypeForDeclaration (deref h r) = true)
         (getDeclarations s).

(** *** areDeclarationsSame *)
Definition areDeclarationsSame (decl1 decl2 : Declaration) : bool :=
  if negb (bool_decide (type decl1 = type decl2)) then false
  else if negb (bool_decide (path decl1 = path decl2)) then false
  else if negb (bool_decide (line (start (range decl1)) = line (start (range decl2))))
          || negb (bool_decide (column (start (range decl1))
                                = column (start (range decl2))))
  then false
  else true.

(** *** resolveAliasDeclaration *)
Section Resolve.

Variable importLookup : ImportLookup.

(** The loop body from its top to the selection of the next declaration,
    with the path passed to [importLookup], if the call was made. *)
Definition loopBody (curDeclaration : Ref) : option string * Step :=
  let cur := deref h curDeclaration in
  match kind cur with
  | AliasDeclaration symbolName submoduleFallback _ =>
      match truthy symbolName with
      | None => (None, StepReturn (Some curDeclaration))
      | Some curSymbolName =>
          let afterLookup (lookupResult : option ImportLookupResult) : Step :=
            let symbol :=
              match lookupResult with
              | Some res => symbolTable res !! curSymbolName
              | None => None
              end in
            match symbol with
            | None =>
                match submoduleFallback with
                | Some fallback => StepFallback fallback
                | None => StepReturn None
                end
            | Some symbol =>
                let declarations := getTypedDeclarations symbol in
                let declarations :=
                  if bool_decide (length declarations = 0)
                  then getDeclarations symbol else declarations in
                if bool_decide (length declarations = 0) then StepReturn None
                else
                  match declarations !! (length declarations - 1) with
                  | Some next => StepAdvance next
                  | None => StepReturn None
                  end
            end in
          match truthy (path cur) with
          | Some p =>
              match importLookup p with
              | None => (Some p, StepReturn None)
              | Some res => (Some p, afterLookup (Some res))
              end
          | None => (None, afterLookup None)
          end
      end
  | _ => (None, StepReturn (Some curDeclaration))
  end.

(** The [while (true)] loop with its two locals; [fuel] bounds the number
    of iterations, counted across the recursive call on a submodule
    fallback, which starts over with an empty [alreadyVisited]. *)
Fixpoint resolveLoop (fuel : nat) (declaration curDeclaration : Ref)
    (alreadyVisited : list Ref) : option Run :=
  match fuel with
  | 0 => None
  | S fuel' =>
      let '(looked, step) := loopBody curDeclaration in
      match step with
      | StepReturn result => Some (tick looked (mkRun result 0 [] false))
      | StepFallback fallback =>
          tick looked <$> resolveLoop fuel' fallback fallback []
      | StepAdvance next =>
          if bool_decide (next ∈ alreadyVisited)
          then Some (tick looked (mkRun (Some declaration) 0 [] true))
          else tick looked <$>
                 resolveLoop fuel' declaration next (alreadyVisited ++ [next])
      end
  end.

Definition resolveAliasDeclaration (fuel : nat) (declaration : Ref) : option Run :=
  resolveLoop fuel declaration declaration [].

End Resolve.

(** *** getDeclarationsForNameNode *)

(** Modelled from the spec: [TypeUtils.doForSubtypes] is in typeUtils.ts,
    which is not among the sources; the spec (4.1) has the callback run
    "for every constituent subtype of the (possibly union) base type", the
    variants of a union in their order and any other type as itself.  The
    callback's effect on the caller's locals is the state [S]; the type that
    [doForSubtypes] builds from the callback's results is dropped by its
    one caller here. *)
Definition doForSubtypes {S : Type} (type_ : Type_)
    (callback : Type_ -> S -> S) (s : S) : S :=
  match type_ with
  | UnionTy subtypes => foldl (fun acc subtype => callback subtype acc) s subtypes
  | _ => callback type_ s
  end.

(** The callback of the member-access branch, first half: the symbol
    that one subtype of the base type has for the member, if any. *)
Definition lookUpMemberSymbol (importLookup : ImportLookup)
    (memberName : string) (subtype : Type_) : option Symbol :=
  match subtype with
  | ClassTy _ =>
      let member :=
        lookUpClassMember X subtype memberName importLookup
          ClassMemberLookupFlags.DeclaredTypesOnly in
      let member :=
        match member with
        | Some m => Some m
        | None =>
            lookUpClassMember X subtype memberName importLookup
              ClassMemberLookupFlags.Default
        end in
      cm_symbol <$> member
  | ObjectTy _ =>
      let member :=
        lookUpObjectMember X subtype memberName importLookup
          ClassMemberLookupFlags.DeclaredTypesOnly in
      let member :=
        match member with
        | Some m => Some m
        | None =>
            lookUpObjectMember X subtype memberName importLookup
              ClassMemberLookupFlags.Default
        end in
      cm_symbol <$> member
  | ModuleTy _ _ _ => getField X subtype memberName
  | _ => None
  end.

(** Second half: what that symbol appends to [declarations]. *)
Definition memberAccessCallback (importLookup : ImportLookup)
    (memberName : string) (subtype : Type_) (declarations : list Ref) : list Ref :=
  match lookUpMemberSymbol importLookup memberName subtype with
  | Some symbol =>
      let typedDecls := getTypedDeclarations symbol in
      if bool_decide (0 < length typedDecls)
      then declarations ++ typedDecls
      else declarations ++ getDeclarations symbol
  | None => declarations
  end.

(** [nameParts.findIndex(part => part === node)]; [None] stands for -1. *)
Definition findIndex (node : NodeId) (nameParts : list NodeId) : option nat :=
  fst <$> list_find (fun part => part = node) nameParts.

(** The result is [None] for [undefined]; the store comes back with the
    alias declaration the module-name branch may have created. *)
Definition getDeclarationsForNameNode (node : NodeId) (importLookup : ImportLookup)
    : option (list Ref) * Heap :=
  let declarations : list Ref := [] in
  let nameValue := nameTokenValue (tree X node) in
  let parentNode := tree X <$> parent (tree X node) in
  let isImportFromAsName :=
    match shape <$> parentNode with
    | Some (ImportFromAsNode name (Some _)) => bool_decide (node = name)
    | _ => false
    end in
  if isImportFromAsName then (None, h)
  else
    let plainIdentifier :=
      match getScopeForNode X node with
      | Some scope =>
          match lookUpSymbolRecursive X scope nameValue with
          | None => (None, h)
          | Some symbolInScope =>
              (Some (declarations ++ getDeclarations (sws_symbol symbolInScope)), h)
          end
      | None => (Some declarations, h)
      end in
    let moduleNamePart :=
      match parent (tree X node), shape <$> parentNode with
      | Some parentId, Some (ModuleNameNode nameParts) =>
          match findIndex node nameParts, getImportInfo X parentId with
          | Some namePartIndex, Some importInfo =>
              match resolvedPaths importInfo !! namePartIndex with
              | Some resolvedPath =>
                  match truthy (Some resolvedPath) with
                  | Some resolvedPath =>
                      let aliasDeclaration :=
                        mkDeclaration (AliasDeclaration None None ∅)
                                      (Some resolvedPath) getEmptyRange in
                      let '(r, h') := alloc h aliasDeclaration in
                      (Some (declarations ++ [r]), h')
                  | None => (Some declarations, h)
                  end
              | None => (Some declarations, h)
              end
          | _, _ => (Some declarations, h)
          end
      | _, _ => plainIdentifier
      end in
    match shape <$> parentNode with
    | Some (MemberAccessNode leftExpression memberName) =>
        if bool_decide (node = memberName) then
          match getExpressionType X leftExpression with
          | Some baseType =>
              (* node.parent.memberName is node itself *)
              let memberName := nameValue in
              (Some (doForSubtypes baseType
                       (memberAccessCallback importLookup memberName) declarations), h)
          | None => (Some declarations, h)
          end
        else moduleNamePart
    | _ => moduleNamePart
    end.

(** *** transformTypeForPossibleEnumClass *)

Definition builtInEnumClasses : list string := ["Enum"; "IntEnum"; "Flag"; "IntFlag"].

(** The read of [enumClass.category] throws when the class node has no
    type attached, and the assertion throws when the type is not a class. *)
Definition _getEnclosingEnumClass (node : NodeId) : Completion (option ClassType) :=
  match getEnclosingClass X node true with
  | Some enclosingClassNode =>
      match getExpressionType X enclosingClassNode with
      | Some (ClassTy enumClass) =>
          if isBuiltIn X enumClass
             && bool_decide (cd_name (details enumClass) ∈ builtInEnumClasses)
          then Normal None
          else if isEnumClass X enumClass then Normal (Some enumClass)
          else Normal None
      | _ => Throw
      end
  | None => Normal None
  end.

Definition transformTypeForPossibleEnumClass (node : NodeId) (typeOfExpr : Type_)
    : Completion Type_ :=
  enumClass ← _getEnclosingEnumClass node;
  match enumClass with
  | Some enumClass => Normal (ObjectType.create enumClass)
  | None => Normal typeOfExpr
  end.

(** *** getTypeForDeclaration *)

(** [if (n && n.nodeType === StringList) n = n.typeAnnotation]. *)
Definition unwrapStringList (typeAnnotationNode : option NodeId) : option NodeId :=
  match typeAnnotationNode with
  | Some n =>
      if bool_decide (nodeType (tree X n) = ParseNodeType.StringList)
      then typeAnnotationOf (tree X n)
      else Some n
  | None => None
  end.

Definition getTypeForDeclaration (declaration : Declaration)
    : Completion (option Type_) :=
  match kind declaration with
  | BuiltInDeclaration declaredType => Normal declaredType
  | ClassDeclaration node
  | FunctionDeclaration node
  | MethodDeclaration node =>
      match nameOf (tree X node) with
      | Some nameNode => Normal (getExpressionType X nameNode)
      | None => Throw
      end
  | ParameterDeclaration node =>
      match unwrapStringList (typeAnnotationOf (tree X node)) with
      | Some typeAnnotationNode =>
          match getExpressionType X typeAnnotationNode with
          | Some declaredType => Normal (Some (convertClassToObject X declaredType))
          | None => Normal None
          end
      | None => Normal None
      end
  | VariableDeclaration _ typeAnnotationNode _ =>
      match unwrapStringList typeAnnotationNode with
      | Some typeAnnotationNode =>
          match getExpressionType X typeAnnotationNode with
          | Some declaredType =>
              declaredType ←
                transformTypeForPossibleEnumClass typeAnnotationNode declaredType;
              Normal (Some (convertClassToObject X declaredType))
          | None => Normal None
          end
      | None => Normal None
      end
  | AliasDeclaration _ _ _ => Normal None
  end.

(** *** _applyLoaderActionsToModuleType *)

(** Assignments to the fields of a module type object. *)
Definition setFields (moduleType : Type_) (fields : gmap string Symbol)
    (docString : option string) : Type_ :=
  match moduleType with
  | ModuleTy _ loaderFields _ => ModuleTy fields loaderFields docString
  | _ => moduleType
  end.

Definition setLoaderFields (moduleType : Type_) (entries : gmap string Symbol) : Type_ :=
  match moduleType with
  | ModuleTy fields loaderFields docString =>
      ModuleTy fields (entries ∪ loaderFields) docString
  | _ => moduleType
  end.

(** An alias declaration read as loader actions: its [path] and its
    [implicitImports]. *)
Definition loaderActionsOf (d : Declaration) : ModuleLoaderActions :=
  mkModuleLoaderActions (path d)
    match kind d with
    | AliasDeclaration _ _ implicitImports => implicitImports
    | _ => ∅
    end.

(** The [forEach] over [implicitImports] sets one key of [loaderFields]
    per entry, to a symbol that depends on that entry only: the keys of
    [implicitImports] end up bound to their symbols, over what
    [loaderFields] held before. *)
Fixpoint _applyLoaderActionsToModuleType (importLookup : ImportLookup)
    (moduleType : Type_) (loaderActions : ModuleLoaderActions) {struct loaderActions}
    : Type_ :=
  match loaderActions with
  | mkModuleLoaderActions path implicitImports =>
      let looked : option Type_ :=
        match truthy path with
        | Some p =>
            match importLookup p with
            | Some lookupResults =>
                Some (setFields moduleType (symbolTable lookupResults)
                                (ilr_docString lookupResults))
            | None => None
            end
        | None => Some moduleType
        end in
      match looked with
      | None => UnknownType.create
      | Some moduleType =>
          setLoaderFields moduleType
            ((fun implicitImport =>
                let importedModuleType := ModuleType.create in
                let symbolType :=
                  _applyLoaderActionsToModuleType importLookup importedModuleType
                    implicitImport in
                createWithType SymbolFlags.None_ symbolType) <$> implicitImports)
      end
  end.

(** The symbol that the [forEach] callback registers for one implicit
    import. *)
Definition importedModuleSymbol (importLookup : ImportLookup)
    (implicitImport : ModuleLoaderActions) : Symbol :=
  createWithType SymbolFlags.None_
    (_applyLoaderActionsToModuleType importLookup ModuleType.create implicitImport).

(** *** getInferredTypeOfDeclaration

    [None] when [resolveAliasDeclaration] does not return within [fuel]
    iterations. *)
Definition getInferredTypeOfDeclaration (fuel : nat) (decl : Ref)
    (importLookup : ImportLookup) : option (Completion (option Type_)) :=
  run ← resolveAliasDeclaration importLookup fuel decl;
  let resolvedDecl := value run in
  let afterModuleCheck : Completion (option Type_) :=
    match resolvedDecl with
    | Some resolved =>
        let resolvedDecl := deref h resolved in
        declaredType ← getTypeForDeclaration resolvedDecl;
        match declaredType with
        | Some declaredType => Normal (Some declaredType)
        | None =>
            match kind resolvedDecl with
            | ParameterDeclaration node =>
                match nameOf (tree X node) with
                | Some nameNode => Normal (getExpressionType X nameNode)
                | None => Normal None
                end
            | VariableDeclaration node _ _ => Normal (getExpressionType X node)
            | _ => Normal None
            end
        end
    | None => Normal None
    end in
  Some
    match resolvedDecl with
    | Some resolved =>
        match kind (deref h resolved) with
        | AliasDeclaration symbolName submoduleFallback _ =>
            let moduleType := ModuleType.create in
            match truthy symbolName, submoduleFallback with
            | Some _, Some fallback =>
                Normal (Some (_applyLoaderActionsToModuleType importLookup moduleType
                                (loaderActionsOf (deref h fallback))))
            | Some _, None => afterModuleCheck
            | None, _ =>
                Normal (Some (_applyLoaderActionsToModuleType importLookup moduleType
                                (loaderActionsOf (deref h resolved))))
            end
        | _ => afterModuleCheck
        end
    | None => afterModuleCheck
    end.

(** ** The alias graph

    [advances a b]: an iteration of the loop that starts at declaration [a]
    selects declaration [b] from the symbol it found. *)
Definition advances (importLookup : ImportLookup) (a b : Ref) : Prop :=
  (loopBody importLookup a).2 = StepAdvance b.

(** [chain a sel]: starting at [a], the loop selects the declarations of
    [sel] one after the other. *)
Fixpoint chain (importLookup : ImportLookup) (a : Ref) (sel : list Ref) : Prop :=
  match sel with
  | [] => True
  | b :: sel' => advances importLookup a b /\ chain importLookup b sel'
  end.

Definition linked (importLookup : ImportLookup) (ns : list Ref) : Prop :=
  match ns with
  | [] => True
  | a :: sel => chain importLookup a sel
  end.

(** The declarations reachable from [d] form the path [tail], which leads
    into the cycle [c :: cyc] of distinct declarations: a cycle of length
    [S (length cyc)], reached after [length tail] selections. *)
Definition reachesCycle (importLookup : ImportLookup) (d : Ref)
    (tail : list Ref) (c : Ref) (cyc : list Ref) : Prop :=
  let ns := tail ++ c :: cyc in
  List.hd c ns = d /\ NoDup ns /\ linked importLookup ns
  /\ advances importLookup (List.last ns c) c.

(** The bookkeeping of the iterations that start at the declarations
    [curs], put in front of the run [r] of the remaining iterations. *)
Definition ticksOver (importLookup : ImportLookup) (curs : list Ref) (r : Run) : Run :=
  foldr (fun cur => tick (loopBody importLookup cur).1) r curs.

(** A declaration at which [resolveAliasDeclaration] stops at once: not an
    alias, or an alias without a symbol name. *)
Definition isTerminal (d : Declaration) : Prop :=
  type d <> DeclarationType.Alias \/ truthy (symbolName d) = None.

(** The declaration list an iteration of alias resolution selects from. *)
Definition chosenDeclarations (symbol : Symbol) : list Ref :=
  match getTypedDeclarations symbol with
  | [] => getDeclarations symbol
  | typed => typed
  end.

(** What the specification says one variant of a union base type
    contributes to the declarations of a member: the typed declarations of
    the member's symbol if it has any, else all its declarations, and
    nothing when the variant has no such member. *)
Definition variantDeclarations (importLookup : ImportLookup) (memberName : string)
    (variant : Type_) : list Ref :=
  match lookUpMemberSymbol importLookup memberName variant with
  | Some symbol => chosenDeclarations symbol
  | None => []
  end.

End DeclarationUtils.

(** ** Sample programs

    Small stores, lookup tables and parse trees on which the functions are
    run. *)

Definition otherNode : ParseNode := mkParseNode OtherNode None.

Definition noExternals : Externals :=
  mkExternals (fun _ => otherNode) (fun _ => None) (fun _ => None) (fun _ => None)
    (fun _ _ => None) (fun _ _ => None) (fun _ => false) (fun _ => false)
    (fun t => t) (fun _ _ _ _ => None) (fun _ _ _ _ => None) (fun _ _ => None).

Definition at_ (l c : nat) : Range := mkRange (mkPosition l c) (mkPosition l (c + 1)).

Definition aliasTo (p sym : string) (r : Range) : Declaration :=
  mkDeclaration (AliasDeclaration (Some sym) None ∅) (Some p) r.

Definition variableIn (p : string) (n : NodeId) (annotation : option NodeId)
    (r : Range) : Declaration :=
  mkDeclaration (VariableDeclaration n annotation false) (Some p) r.

Definition symbolOf (ds : list Ref) : Symbol := mkSymbol SymbolFlags.None_ ds None.

(** Three imports of module [m]: [0] names [a], whose declaration is [1];
    [1] names [b], whose declaration is [2]; [2] names [c], whose
    declaration is [2] itself. *)
Definition lassoHeap : Heap :=
  mkHeap (fun r =>
            match r with
            | 0 => aliasTo "m" "a" (at_ 0 0)
            | 1 => aliasTo "m" "b" (at_ 1 0)
            | _ => aliasTo "m" "c" (at_ 2 0)
            end) 3.

Definition lassoLookup : ImportLookup := fun p =>
  if decide (p = "m")
  then Some (mkImportLookupResult
               {[ "a" := symbolOf [1]; "b" := symbolOf [2]; "c" := symbolOf [2] ]} None)
  else None.

(** The user's file imports [x] from [p] (declaration [0]); [p] re-exports
    it from [q] as [y] ([1], first line of [p]); [q] takes [y] from [r] as
    [w] ([2]); [r] takes it back from [q] as [z] ([3], first line of [r]);
    [z] is a variable of [q] ([4]).  Declarations [1] and [3] are two
    objects of the same kind, path and start position. *)
Definition twinHeap : Heap :=
  mkHeap (fun r =>
            match r with
            | 0 => aliasTo "p" "x" (at_ 5 0)
            | 1 => aliasTo "q" "y" (at_ 0 14)
            | 2 => aliasTo "r" "w" (at_ 2 14)
            | 3 => aliasTo "q" "z" (at_ 0 14)
            | _ => variableIn "q" 40 None (at_ 3 0)
            end) 5.

Definition twinLookup : ImportLookup := fun p =>
  if decide (p = "p") then
    Some (mkImportLookupResult {[ "x" := symbolOf [1] ]} None)
  else if decide (p = "q") then
    Some (mkImportLookupResult {[ "y" := symbolOf [2]; "z" := symbolOf [4] ]} None)
  else if decide (p = "r") then
    Some (mkImportLookupResult {[ "w" := symbolOf [3] ]} None)
  else None.

(** Module [m] with four symbols: [f] declared by an unannotated variable,
    an annotated variable, a function and another unannotated variable;
    [g] by the two unannotated variables; [e] by nothing; [t] by the
    annotated variable, the function and a class.  Declarations [0], [6],
    [7] and [8] import [f], [g], [e] and [t]; [9] imports the module. *)
Definition sampleHeap : Heap :=
  mkHeap (fun r =>
            match r with
            | 0 => aliasTo "m" "f" (at_ 0 0)
            | 1 => variableIn "m" 10 None (at_ 1 0)
            | 2 => variableIn "m" 20 (Some 21) (at_ 2 0)
            | 3 => mkDeclaration (FunctionDeclaration 30) (Some "m") (at_ 3 0)
            | 4 => variableIn "m" 40 None (at_ 4 0)
            | 5 => mkDeclaration (ClassDeclaration 50) (Some "m") (at_ 5 0)
            | 6 => aliasTo "m" "g" (at_ 0 0)
            | 7 => aliasTo "m" "e" (at_ 0 0)
            | 8 => aliasTo "m" "t" (at_ 0 0)
            | _ => mkDeclaration (AliasDeclaration None None ∅) (Some "m") (at_ 0 0)
            end) 10.

Definition sampleLookup : ImportLookup := fun p =>
  if decide (p = "m")
  then Some (mkImportLookupResult
               {[ "f" := symbolOf [1; 2; 3; 4]; "g" := symbolOf [1; 4];
                  "e" := symbolOf []; "t" := symbolOf [2; 3; 5] ]} None)
  else None.

(** Declaration [0] imports [x] from [m], which has no such symbol, and
    falls back on declaration [1]; [1] imports [y] from [n], where [y] is
    declared by [0]. *)
Definition fallbackHeap : Heap :=
  mkHeap (fun r =>
            match r with
            | 0 => mkDeclaration (AliasDeclaration (Some "x") (Some 1) ∅)
                                 (Some "m") (at_ 0 0)
            | _ => aliasTo "n" "y" (at_ 0 0)
            end) 2.

Definition fallbackLookup : ImportLookup := fun p =>
  if decide (p = "m") then Some (mkImportLookupResult ∅ None)
  else if decide (p = "n") then
    Some (mkImportLookupResult {[ "y" := symbolOf [0] ]} None)
  else None.

(** A parse tree and side tables over the declarations of [sampleHeap].

    Nodes [100]-[102]: the member access [obj.attr], where [obj] has the
    union type of class [A], a function and an instance of [B]; [A] has a
    member [attr] with the declarations of [f], found by the unrestricted
    lookup only, and [B] one with the declarations of [g].
    Nodes [130]-[132]: the member access [cls.attr], where [cls] is the
    class [A].  Nodes [110]-[112]: [from m import X as Y].  Node [120]: a name outside
    of any scope.
    Nodes [200], [210], [220]: the annotation [int] of a variable in the
    body of the enumeration [Color], of the plain class [Plain] and of the
    built-in class [Enum]; [201], [211], [221] are the class nodes. *)
Definition nameNodeOf (v : string) (p : option NodeId) : ParseNode :=
  mkParseNode (NameNode v) p.

Definition classNamed (n : string) : ClassType := mkClassType (mkClassDetails n 0).

Definition sampleTree (n : NodeId) : ParseNode :=
  if decide (n = 100) then nameNodeOf "attr" (Some 101)
  else if decide (n = 101) then mkParseNode (MemberAccessNode 102 100) None
  else if decide (n = 102) then nameNodeOf "obj" (Some 101)
  else if decide (n = 110) then nameNodeOf "X" (Some 111)
  else if decide (n = 111) then mkParseNode (ImportFromAsNode 110 (Some 112)) None
  else if decide (n = 112) then nameNodeOf "Y" (Some 111)
  else if decide (n = 120) then nameNodeOf "lonely" None
  else if decide (n = 130) then nameNodeOf "attr" (Some 131)
  else if decide (n = 131) then mkParseNode (MemberAccessNode 132 130) None
  else if decide (n = 132) then nameNodeOf "cls" (Some 131)
  else if decide (n = 201) then mkParseNode (ClassNode 203) None
  else if decide (n = 211) then mkParseNode (ClassNode 213) None
  else if decide (n = 221) then mkParseNode (ClassNode 223) None
  else nameNodeOf "int" None.

Definition sampleExpressionType (n : NodeId) : option Type_ :=
  if decide (n = 102) then
    Some (UnionTy [ClassTy (classNamed "A"); FunctionTy "f"; ObjectTy (classNamed "B")])
  else if decide (n = 132) then Some (ClassTy (classNamed "A"))
  else if decide (n = 200) then Some (ClassTy (classNamed "int"))
  else if decide (n = 210) then Some (ClassTy (classNamed "int"))
  else if decide (n = 220) then Some (ClassTy (classNamed "int"))
  else if decide (n = 201) then Some (ClassTy (classNamed "Color"))
  else if decide (n = 211) then Some (ClassTy (classNamed "Plain"))
  else if decide (n = 221) then Some (ClassTy (classNamed "Enum"))
  else None.

Definition sampleEnclosingClass (n : NodeId) (stopAtFunction : bool) : option NodeId :=
  if decide (n = 200) then Some 201
  else if decide (n = 210) then Some 211
  else if decide (n = 220) then Some 221
  else None.

Definition sampleClassMember (t : Type_) (m : string) (_ : ImportLookup)
    (flags : ClassMemberLookupFlags.t) : option ClassMember :=
  match t, flags with
  | ClassTy c, ClassMemberLookupFlags.Default =>
      if decide (cd_name (details c) = "A" /\ m = "attr")
      then Some (mkClassMember (symbolOf [1; 2; 3; 4])) else None
  | _, _ => None
  end.

Definition sampleObjectMember (t : Type_) (m : string) (_ : ImportLookup)
    (flags : ClassMemberLookupFlags.t) : option ClassMember :=
  match t, flags with
  | ObjectTy c, ClassMemberLookupFlags.Default =>
      if decide (cd_name (details c) = "B" /\ m = "attr")
      then Some (mkClassMember (symbolOf [1; 4])) else None
  | _, _ => None
  end.

Definition sampleExternals : Externals :=
  mkExternals sampleTree sampleExpressionType (fun _ => None)
    (fun n => if decide (n = 120) then None else Some 0)
    (fun _ v =>
       if decide (v = "Y") then Some (mkSymbolWithScope (symbolOf [0])) else None)
    sampleEnclosingClass
    (fun c => bool_decide (cd_name (details c) ∈ ["Color"; "Enum"]))
    (fun c => bool_decide (cd_name (details c) ∈ ["Enum"; "int"]))
    (fun t => match t with ClassTy c => ObjectTy c | _ => t end)
    sampleClassMember sampleObjectMember (fun _ _ => None).

(** A package: declaration [0] is [import pkg], with the implicit import
    of its submodule [sub]; declaration [1] imports a module that the
    lookup does not know. *)
Definition pkgHeap : Heap :=
  mkHeap (fun r =>
            match r with
            | 0 => mkDeclaration
                     (AliasDeclaration None None
                        {[ "sub" := mkModuleLoaderActions (Some "pkg/sub") ∅ ]})
                     (Some "pkg/__init__") (at_ 0 7)
            | _ => mkDeclaration
                     (AliasDeclaration None None
                        {[ "sub" := mkModuleLoaderActions (Some "pkg/sub") ∅ ]})
                     (Some "gone") (at_ 1 7)
            end) 2.

Definition pkgLookup : ImportLookup := fun p =>
  if decide (p = "pkg/__init__") then
    Some (mkImportLookupResult {[ "x" := symbolOf [5] ]} (Some "The package."))
  else if decide (p = "pkg/sub") then
    Some (mkImportLookupResult {[ "y" := symbolOf [6] ]} None)
  else None.

(** An alias that names a symbol: the declarations at which the loop of
    [resolveAliasDeclaration] does not stop at once. *)
Definition namesSymbol (h : Heap) (r : Ref) : Prop :=
  exists sn fb imps curSymbolName,
    kind (deref h r) = AliasDeclaration sn fb imps
    /\ truthy sn = Some curSymbolName.

(** ** isFunctionOrMethodDeclaration *)
Definition isFunctionOrMethodDeclaration (declaration : Declaration) : bool :=
  bool_decide (type declaration = DeclarationType.Method)
  || bool_decide (type declaration = DeclarationType.Function_).

(** ** The hover provider (languageService/hoverProvider.ts)

    The caller of the declaration utilities: it maps a position of a
    program to the text shown for the name at that position. *)

Record HoverTextPart := mkHoverTextPart { python : bool; text : string }.

Record HoverResults := mkHoverResults {
  parts : list HoverTextPart;
  hr_range : Range
}.

(** The tokenizer's line table, as text ranges (start, length). *)
Definition TextRangeCollection := list (nat * nat).

Record ParseResults := mkParseResults {
  parseTree : NodeId;
  tokenizerLines : TextRangeCollection
}.

(** The collaborators of the hover provider that are not part of these
    sources: the position conversions of common/positionUtils.ts,
    [ParseTreeUtils.findNodeByOffset], the text range of a node, [printType],
    the test for the Property category and the docstrings that types.ts
    keeps for classes and functions. *)
Record HoverExternals := mkHoverExternals {
  convertPositionToOffset : Position -> TextRangeCollection -> option nat;
  convertOffsetToPosition : nat -> TextRangeCollection -> Position;
  findNodeByOffset : NodeId -> nat -> option NodeId;
  nodeStart : NodeId -> nat;
  getEnd : NodeId -> nat;
  printType : Type_ -> string;
  isPropertyCategory : Type_ -> bool;
  classDocString : ClassType -> option string;
  getDocString : Type_ -> option string
}.

Section HoverProvider.

Variable X : Externals.
Variable HX : HoverExternals.

Definition _addResultsPart (parts : list HoverTextPart) (text : string)
    (python : bool) : list HoverTextPart :=
  parts ++ [mkHoverTextPart python text].

Definition _getTypeFromNode (node : NodeId) : option Type_ :=
  getExpressionType X node.

Definition _getTypeText (node : NodeId) : string :=
  let type_ := default UnknownType.create (_getTypeFromNode node) in
  String.append ": " (printType HX type_).

Definition _addDocumentationPartForType (parts : list HoverTextPart)
    (type_ : Type_) : list HoverTextPart :=
  match type_ with
  | ModuleTy _ _ docString =>
      match truthy docString with
      | Some docString => _addResultsPart parts docString false
      | None => parts
      end
  | ClassTy classType =>
      match truthy (classDocString HX classType) with
      | Some docString => _addResultsPart parts docString false
      | None => parts
      end
  | FunctionTy _ =>
      match truthy (getDocString HX type_) with
      | Some docString => _addResultsPart parts docString false
      | None => parts
      end
  | OverloadedFunctionTy overloads =>
      foldl (fun parts overload =>
               match truthy (getDocString HX overload) with
               | Some docString => _addResultsPart parts docString false
               | None => parts
               end) parts overloads
  | _ => parts
  end.

Definition _addDocumentationPart (parts : list HoverTextPart) (node : NodeId)
    : list HoverTextPart :=
  match _getTypeFromNode node with
  | Some type_ => _addDocumentationPartForType parts type_
  | None => parts
  end.

(** The label part and the documentation part that most kinds of
    declaration add when the node is a name. *)
Definition labelled (parts : list HoverTextPart) (node : NodeId) (label : string)
    (withTypeText : bool) : list HoverTextPart :=
  if bool_decide (nodeType (tree X node) = ParseNodeType.Name) then
    let text :=
      String.append label
        (String.append (nameTokenValue (tree X node))
           (if withTypeText then _getTypeText node else "")) in
    _addDocumentationPart (_addResultsPart parts text true) node
  else parts.

(** [None] when [resolveAliasDeclaration] does not return within [fuel]
    iterations. *)
Definition _addResultsForDeclaration (h : Heap) (fuel : nat)
    (parts : list HoverTextPart) (declaration : Ref) (node : NodeId)
    (importLookup : ImportLookup) : option (Completion (list HoverTextPart)) :=
  run ← resolveAliasDeclaration X h importLookup fuel declaration;
  Some
    match value run with
    | None =>
        if bool_decide (nodeType (tree X node) = ParseNodeType.Name) then
          Normal (_addResultsPart parts
                    (String.append "(import) "
                       (String.append (nameTokenValue (tree X node))
                          (_getTypeText node))) true)
        else Normal parts
    | Some resolved =>
        let resolvedDecl := deref h resolved in
        match kind resolvedDecl with
        | VariableDeclaration _ _ isConstant =>
            let label := if isConstant then "constant" else "variable" in
            Normal (labelled parts node
                      (String.append "(" (String.append label ") ")) true)
        | ParameterDeclaration _ => Normal (labelled parts node "(parameter) " true)
        | ClassDeclaration _ => Normal (labelled parts node "(class) " false)
        | FunctionDeclaration _ => Normal (labelled parts node "(function) " true)
        | MethodDeclaration _ =>
            declaredType ← getTypeForDeclaration X resolvedDecl;
            let label :=
              match declaredType with
              | Some declaredType =>
                  if isPropertyCategory HX declaredType then "property" else "method"
              | None => "method"
              end in
            Normal (labelled parts node
                      (String.append "(" (String.append label ") ")) true)
        | AliasDeclaration _ _ _ => Normal (labelled parts node "(module) " false)
        | BuiltInDeclaration _ => Normal parts
        end
    end.

Definition getHoverForPosition (h : Heap) (fuel : nat) (parseResults : ParseResults)
    (position : Position) (importLookup : ImportLookup)
    : option (Completion (option HoverResults)) :=
  match convertPositionToOffset HX position (tokenizerLines parseResults) with
  | None => Some (Normal None)
  | Some offset =>
      match findNodeByOffset HX (parseTree parseResults) offset with
      | None => Some (Normal None)
      | Some node =>
          let results_range :=
            mkRange
              (convertOffsetToPosition HX (nodeStart HX node)
                 (tokenizerLines parseResults))
              (convertOffsetToPosition HX (getEnd HX node)
                 (tokenizerLines parseResults)) in
          let results_parts : list HoverTextPart := [] in
          let added : option (Completion (list HoverTextPart)) :=
            if bool_decide (nodeType (tree X node) = ParseNodeType.Name) then
              let '(declarations, h') :=
                getDeclarationsForNameNode X h node importLookup in
              match declarations with
              | Some (declaration :: _) =>
                  _addResultsForDeclaration h' fuel results_parts declaration node
                    importLookup
              | _ =>
                  let inModuleName :=
                    match parent (tree X node) with
                    | Some parentId =>
                        bool_decide (nodeType (tree X parentId)
                                     = ParseNodeType.ModuleName)
                    | None => false
                    end in
                  if negb inModuleName then
                    if bool_decide (length results_parts = 0) then
                      Some (Normal
                              (_addDocumentationPart
                                 (_addResultsPart results_parts
                                    (String.append (nameTokenValue (tree X node))
                                       (_getTypeText node)) true)
                                 node))
                    else Some (Normal results_parts)
                  else Some (Normal results_parts)
              end
            else Some (Normal results_parts) in
          completion ← added;
          Some (results_parts ← completion;
                Normal (if bool_decide (0 < length results_parts)
                        then Some (mkHoverResults results_parts results_range)
                        else None))
      end
  end.

End HoverProvider.

(** The label that the hover provider puts in front of a name, by the
    kind of the declaration the name resolves to, and whether the text of
    the type follows the name; none for a built-in declaration, and a
    method's label depends on its declared type. *)
Definition hoverLabel (k : DeclarationKind) : option (string * bool) :=
  match k with
  | VariableDeclaration _ _ isConstant =>
      Some (if isConstant then "(constant) " else "(variable) ", true)
  | ParameterDeclaration _ => Some ("(parameter) ", true)
  | ClassDeclaration _ => Some ("(class) ", false)
  | FunctionDeclaration _ => Some ("(function) ", true)
  | AliasDeclaration _ _ _ => Some ("(module) ", false)
  | MethodDeclaration _ | BuiltInDeclaration _ => None
  end.

(** A program for the hover provider: the names [v], [len], [gone] and [C]
    at nodes [400]-[403], bound in scope to a constant, a built-in, an
    import from a module that cannot be found and an import of the class
    [C] of module [lib]; node [404] is not a name; node [405] is the name
    [ns] in a module name whose import resolved to no path; nodes [407] and
    [408] are the two parts of the module name [pkg.sub]; node [410] is the
    name [free], which no scope binds. *)
Definition hoverTree (n : NodeId) : ParseNode :=
  if decide (n = 400) then nameNodeOf "v" None
  else if decide (n = 401) then nameNodeOf "len" None
  else if decide (n = 402) then nameNodeOf "gone" None
  else if decide (n = 403) then nameNodeOf "C" None
  else if decide (n = 405) then nameNodeOf "ns" (Some 406)
  else if decide (n = 406) then mkParseNode (ModuleNameNode [405]) None
  else if decide (n = 407) then nameNodeOf "pkg" (Some 409)
  else if decide (n = 408) then nameNodeOf "sub" (Some 409)
  else if decide (n = 409) then mkParseNode (ModuleNameNode [407; 408]) None
  else if decide (n = 410) then nameNodeOf "free" None
  else otherNode.

Definition hoverHeap : Heap :=
  mkHeap (fun r =>
            match r with
            | 0 => mkDeclaration (VariableDeclaration 10 None true) (Some "a") (at_ 0 0)
            | 1 => mkDeclaration (BuiltInDeclaration (Some (FunctionTy "len")))
                                 (Some "builtins") (at_ 0 0)
            | 2 => aliasTo "nowhere" "sym" (at_ 1 0)
            | 3 => mkDeclaration (ClassDeclaration 50) (Some "lib") (at_ 0 0)
            | _ => aliasTo "lib" "C" (at_ 2 0)
            end) 5.

Definition hoverLookup : ImportLookup := fun p =>
  if decide (p = "lib") then
    Some (mkImportLookupResult {[ "C" := symbolOf [3] ]} None)
  else if decide (p = "pkg/sub") then
    Some (mkImportLookupResult {[ "y" := symbolOf [0] ]} (Some "The submodule."))
  else None.

Definition hoverScope (_ : ScopeId) (v : string) : option SymbolWithScope :=
  if decide (v = "v") then Some (mkSymbolWithScope (symbolOf [0]))
  else if decide (v = "len") then Some (mkSymbolWithScope (symbolOf [1]))
  else if decide (v = "gone") then Some (mkSymbolWithScope (symbolOf [2]))
  else if decide (v = "C") then Some (mkSymbolWithScope (symbolOf [4; 3]))
  else None.

Definition hoverProgram : Externals :=
  mkExternals hoverTree
    (fun n =>
       if decide (n = 400) then Some (ObjectTy (classNamed "int"))
       else if decide (n = 403) then Some (ClassTy (classNamed "C"))
       else if decide (n = 10) then Some (ObjectTy (classNamed "int"))
       else None)
    (fun n =>
       if decide (n = 406) then Some (mkImportResult [""])
       else if decide (n = 409) then Some (mkImportResult ["pkg/__init__"; "pkg/sub"])
       else None)
    (fun _ => Some 0) hoverScope (fun _ _ => None) (fun _ => false) (fun _ => false)
    (fun t => match t with ClassTy c => ObjectTy c | _ => t end)
    (fun _ _ _ _ => None) (fun _ _ _ _ => None) (fun _ _ => None).

Definition hoverHelpers : HoverExternals :=
  mkHoverExternals
    (fun position _ =>
       if decide (line position = 0) then Some (column position) else None)
    (fun offset _ => mkPosition 0 offset)
    (fun _ offset => if decide (offset < 500) then Some offset else None)
    (fun n => n) (fun n => S n)
    (fun t =>
       match t with
       | ObjectTy c => cd_name (details c)
       | ClassTy c => String.append "Type[" (String.append (cd_name (details c)) "]")
       | _ => "Unknown"
       end)
    (fun _ => false)
    (fun c => if decide (cd_name (details c) = "C") then Some "A class." else None)
    (fun _ => None).

Definition hoverParse : ParseResults := mkParseResults 0 [(0, 500)].

(** [from pkg import sub]: declaration [0] names the symbol [sub] of the
    package, which the package does not define, and falls back on
    declaration [1], the submodule. *)
Definition submoduleHeap : Heap :=
  mkHeap (fun r =>
            match r with
            | 0 => mkDeclaration (AliasDeclaration (Some "sub") (Some 1) ∅)
                                 (Some "pkg/__init__") (at_ 0 16)
            | _ => mkDeclaration (AliasDeclaration None None ∅)
                                 (Some "pkg/sub") (at_ 0 16)
            end) 2.

(** The declaration at [r] is an alias with a submodule fallback. *)
Definition submoduleFallback_present (h : Heap) (r : Ref) : Prop :=
  match kind (deref h r) with
  | AliasDeclaration _ (Some _) _ => True
  | _ => False
  end.

(** A program in which the class that encloses every node has no type
    attached; node [2] has the type [int]. *)
Definition untypedClassProgram : Externals :=
  mkExternals (fun _ => otherNode)
    (fun n => if decide (n = 2) then Some (ClassTy (classNamed "int")) else None)
    (fun _ => None) (fun _ => None) (fun _ _ => None) (fun _ _ => Some 1)
    (fun _ => false) (fun _ => false) (fun t => t)
    (fun _ _ _ _ => None) (fun _ _ _ _ => None) (fun _ _ => None).



(** ** Properties of alias resolution *)

Section ResolveProperties.

Variable X : Externals.
Variable h : Heap.
Variable importLookup : ImportLookup.

#[local] Abbreviation body := (loopBody X h importLookup).
#[local] Abbreviation loop := (resolveLoop X h importLookup).
#[local] Abbreviation resolve := (resolveAliasDeclaration X h importLookup).
#[local] Abbreviation adv := (advances X h importLookup).
#[local] Abbreviation chain_ := (chain X h importLookup).
#[local] Abbreviation ticks := (ticksOver X h importLookup).

Lemma iterations_ticksOver curs r :
  iterations (ticks curs r) = length curs + iterations r.
Proof. induction curs as [|c curs IH]; simpl; [done | by rewrite IH]. Qed.

Lemma value_ticksOver curs r : value (ticks curs r) = value r.
Proof. induction curs as [|c curs IH]; simpl; done. Qed.

Lemma cycleDetected_ticksOver curs r :
  cycleDetected (ticks curs r) = cycleDetected r.
Proof. induction curs as [|c curs IH]; simpl; done. Qed.

Lemma loop_unfold fuel declaration cur visited :
  loop (S fuel) declaration cur visited =
  match (body cur).2 with
  | StepReturn result => Some (tick (body cur).1 (mkRun result 0 [] false))
  | StepFallback fallback => tick (body cur).1 <$> loop fuel fallback fallback []
  | StepAdvance next =>
      if bool_decide (next ∈ visited)
      then Some (tick (body cur).1 (mkRun (Some declaration) 0 [] true))
      else tick (body cur).1 <$> loop fuel declaration next (visited ++ [next])
  end.
Proof. simpl. by destruct (body cur) as [looked step]. Qed.

Lemma loopBody_terminal cur :
  isTerminal (deref h cur) -> body cur = (None, StepReturn (Some cur)).
Proof.
  unfold isTerminal, loopBody, type, symbolName.
  destruct (kind (deref h cur)) as [| | | | | |sn fb imps]; try done.
  intros [Hne | Hsn]; [done | by rewrite Hsn].
Qed.

Lemma loopBody_return_some cur r :
  (body cur).2 = StepReturn (Some r) ->
  r = cur /\ (body cur).1 = None /\ isTerminal (deref h cur).
Proof.
  unfold isTerminal, loopBody, type, symbolName.
  destruct (kind (deref h cur)) as [| | | | | |sn fb imps]; simpl;
    try (intros [= <-]; split_and!; [done | done | by left]).
  repeat case_match; simpl; try done; intros [= <-]; split_and!; try done; by right.
Qed.

Lemma loop_mono fuel fuel' declaration cur visited run :
  loop fuel declaration cur visited = Some run ->
  fuel <= fuel' ->
  loop fuel' declaration cur visited = Some run.
Proof.
  revert fuel' declaration cur visited run.
  induction fuel as [|fuel IH]; intros fuel' declaration cur visited run; [done |].
  destruct fuel' as [|fuel']; [lia |]. intros Hrun Hle.
  rewrite loop_unfold in Hrun. rewrite loop_unfold.
  destruct (body cur).2 as [result | fallback | next]; [done | |].
  - destruct (loop fuel fallback fallback []) as [run0|] eqn:Hrec; [|done].
    rewrite (IH fuel' _ _ _ _ Hrec); [done | lia].
  - case_bool_decide; [done |].
    destruct (loop fuel declaration next (visited ++ [next])) as [run0|] eqn:Hrec;
      [|done].
    rewrite (IH fuel' _ _ _ _ Hrec); [done | lia].
Qed.

Lemma loop_terminal fuel declaration cur visited :
  isTerminal (deref h cur) ->
  loop (S fuel) declaration cur visited = Some (mkRun (Some cur) 1 [] false).
Proof. intros Hterm. rewrite loop_unfold, (loopBody_terminal _ Hterm). done. Qed.

(** Where a returned declaration comes from: a run that did not leave
    through the circularity check stopped at a terminal declaration, and any
    returned declaration resolves to itself. *)
Lemma loop_image fuel declaration cur visited run r :
  loop fuel declaration cur visited = Some run ->
  value run = Some r ->
  (cycleDetected run = false -> isTerminal (deref h r))
  /\ (r = declaration
      \/ exists run', loop fuel r r [] = Some run' /\ value run' = Some r).
Proof.
  revert declaration cur visited run.
  induction fuel as [|fuel IH]; intros declaration cur visited run; [done |].
  rewrite loop_unfold.
  destruct (body cur).2 as [result | fallback | next] eqn:Hstep.
  - intros [= <-]; cbn [value tick cycleDetected]. intros ->.
    apply loopBody_return_some in Hstep as (-> & _ & Hterm).
    split; [done |]. right. eexists. split; [by apply loop_terminal | done].
  - destruct (loop fuel fallback fallback []) as [run0|] eqn:Hrec; [|done].
    intros [= <-]; cbn [value tick cycleDetected]. intros Hval.
    destruct (IH _ _ _ _ Hrec Hval) as [Hterm Hself]. split; [done |].
    right. destruct Hself as [-> | (run' & Hrun' & Hval')].
    + exists run0. split; [|done]. eapply loop_mono; [done | lia].
    + exists run'. split; [|done]. eapply loop_mono; [done | lia].
  - case_bool_decide.
    + intros [= <-]; cbn [value tick cycleDetected]. intros [= <-].
      split; [done | by left].
    + destruct (loop fuel declaration next (visited ++ [next])) as [run0|] eqn:Hrec;
        [|done].
      intros [= <-]; cbn [value tick cycleDetected]. intros Hval.
      destruct (IH _ _ _ _ Hrec Hval) as [Hterm Hself]. split; [done |].
      destruct Hself as [-> | (run' & Hrun' & Hval')]; [by left | right].
      exists run'. split; [|done]. eapply loop_mono; [done | lia].
Qed.

Lemma last_cons_default (a b : Ref) (sel : list Ref) :
  List.last (b :: sel) a = List.last sel b.
Proof.
  revert a b. induction sel as [|c sel IH]; intros a b; [done |].
  change (List.last (b :: c :: sel) a) with (List.last (c :: sel) a).
  by rewrite (IH a c), (IH b c).
Qed.

Lemma length_removelast_cons (a : Ref) (l : list Ref) :
  length (removelast (a :: l)) = length l.
Proof.
  revert a. induction l as [|b l IH]; intros a; [done |].
  change (removelast (a :: b :: l)) with (a :: removelast (b :: l)).
  cbn [length]. by rewrite IH.
Qed.

Lemma chain_app a l1 l2 :
  chain_ a (l1 ++ l2) <-> chain_ a l1 /\ chain_ (List.last l1 a) l2.
Proof.
  revert a. induction l1 as [|b l1 IH]; intros a.
  - simpl. tauto.
  - rewrite last_cons_default. simpl. rewrite IH. tauto.
Qed.

(** Along a chain of distinct declarations none of which was visited, the
    loop runs one iteration per selection. *)
Lemma loop_chain sel : forall cur visited fuel declaration,
  chain_ cur sel ->
  NoDup sel ->
  (forall x, x ∈ sel -> x ∉ visited) ->
  loop (length sel + fuel) declaration cur visited =
  ticks (removelast (cur :: sel)) <$>
    loop fuel declaration (List.last sel cur) (visited ++ sel).
Proof.
  induction sel as [|b sel IH]; intros cur visited fuel declaration Hchain Hnd Hfresh.
  - simpl. rewrite app_nil_r. by destruct (loop fuel declaration cur visited).
  - destruct Hchain as [Hadv Hchain]. apply NoDup_cons in Hnd as [Hb Hnd].
    change (length (b :: sel) + fuel) with (S (length sel + fuel)).
    rewrite loop_unfold. unfold advances in Hadv. rewrite Hadv.
    rewrite bool_decide_eq_false_2 by (apply Hfresh; left).
    rewrite (IH b (visited ++ [b]) fuel declaration Hchain Hnd).
    + rewrite last_cons_default, <- app_assoc.
      change (removelast (cur :: b :: sel)) with (cur :: removelast (b :: sel)).
      change ([b] ++ sel) with (b :: sel).
      by destruct (loop fuel declaration (List.last sel b) (visited ++ b :: sel)).
    + intros x Hx [Hin | Hin%list_elem_of_singleton]%elem_of_app.
      * by apply (Hfresh x); [right |].
      * by subst.
Qed.

(** What an iteration does with the symbol it found: it moves to the last
    of the declarations it selects from, and gives up when there is none. *)
Lemma loopBody_found cur sn fb imps curSymbolName p res symbol :
  kind (deref h cur) = AliasDeclaration sn fb imps ->
  truthy sn = Some curSymbolName ->
  truthy (path (deref h cur)) = Some p ->
  importLookup p = Some res ->
  symbolTable res !! curSymbolName = Some symbol ->
  body cur =
  (Some p,
   match last (chosenDeclarations X h symbol) with
   | Some next => StepAdvance next
   | None => StepReturn None
   end).
Proof.
  intros Hkind Hsn Hpath Hlook Hsym. unfold loopBody, chosenDeclarations.
  rewrite Hkind, Hsn, Hpath, Hlook, Hsym. f_equal.
  destruct (getTypedDeclarations X h symbol) as [|t typed] eqn:Htyped.
  - change (bool_decide (length (@nil Ref) = 0)) with true. cbv iota.
    destruct (getDeclarations symbol) as [|a all] eqn:Hall; [done |].
    rewrite bool_decide_eq_false_2 by done.
    rewrite last_lookup.
    by replace (length (a :: all) - 1) with (pred (length (a :: all))) by lia.
  - change (bool_decide (length (t :: typed) = 0)) with false. cbv iota.
    rewrite last_lookup.
    by replace (length (t :: typed) - 1) with (pred (length (t :: typed))) by lia.
Qed.

(** C10: a declaration that is not an alias, and an alias without a
    symbol name, is returned as it is after one iteration and without any
    call of [importLookup]; and resolving a declaration that
    [resolveAliasDeclaration] returned gives that declaration back, in one
    iteration and without lookup when the first run did not leave through
    the circularity check. *)
Theorem resolveAliasDeclaration_terminal_idempotent d :
  (isTerminal (deref h d) ->
   forall fuel,
     resolveAliasDeclaration X h importLookup (S fuel) d
     = Some (mkRun (Some d) 1 [] false))
  /\ (forall fuel run r,
        resolveAliasDeclaration X h importLookup fuel d = Some run ->
        value run = Some r ->
        (cycleDetected run = false ->
         resolveAliasDeclaration X h importLookup fuel r
         = Some (mkRun (Some r) 1 [] false))
        /\ exists run',
             resolveAliasDeclaration X h importLookup fuel r = Some run'
             /\ value run' = Some r).
Proof.
  split.
  - intros Hterm fuel. by apply loop_terminal.
  - intros fuel run r Hrun Hval. unfold resolveAliasDeclaration in *.
    destruct (loop_image _ _ _ _ _ _ Hrun Hval) as [Hterm Hself]. split.
    + intros Hcycle. destruct fuel as [|fuel]; [done |].
      by apply loop_terminal, Hterm.
    + destruct Hself as [-> | Hex]; [by exists run | done].
Qed.

(** C1, as amended: when the selections from the input declaration run
    through [tail] into a cycle of [S (length cyc)] distinct declarations,
    [resolveAliasDeclaration] terminates and returns the input declaration,
    through the circularity check, after one iteration more than the length
    of the cycle when the input is on the cycle, and after as many
    iterations as [tail] and the cycle have declarations otherwise. *)
Theorem resolveAliasDeclaration_cycle d tail c cyc fuel :
  reachesCycle X h importLookup d tail c cyc ->
  length tail + S (length cyc) < fuel ->
  exists run,
    resolveAliasDeclaration X h importLookup fuel d = Some run
    /\ value run = Some d
    /\ cycleDetected run = true
    /\ iterations run =
       match tail with
       | [] => S (S (length cyc))
       | _ :: _ => length tail + S (length cyc)
       end.
Proof.
  intros (Hhd & Hnd & Hlinked & Hclose) Hfuel. unfold resolveAliasDeclaration.
  destruct tail as [|d' tail]; simpl in Hhd, Hnd, Hlinked; cbn [app] in Hclose; subst.
  - rewrite last_cons_default in Hclose.
    assert (Hchain : chain_ d (cyc ++ [d])) by (apply chain_app; simpl; tauto).
    assert (Hnd' : NoDup (cyc ++ [d])).
    { apply NoDup_cons in Hnd as [Hd Hnd]. apply NoDup_app. split_and!; [done | |].
      - intros x Hx ->%list_elem_of_singleton. done.
      - apply NoDup_singleton. }
    replace fuel with (length (cyc ++ [d]) + S (fuel - S (S (length cyc))))
      by (rewrite length_app; simpl in *; lia).
    rewrite (loop_chain _ _ [] _ _ Hchain Hnd') by (intros x _; apply not_elem_of_nil).
    rewrite last_last, app_nil_l, loop_unfold.
    assert (exists next, (body d).2 = StepAdvance next /\ next ∈ cyc ++ [d])
      as (next & -> & Hin).
    { destruct cyc as [|b cyc]; simpl in *.
      - exists d. split; [done | by left].
      - exists b. split; [tauto | by left]. }
    rewrite bool_decide_eq_true_2 by done. eexists. split; [done |].
    rewrite value_ticksOver, cycleDetected_ticksOver, iterations_ticksOver.
    rewrite length_removelast_cons, length_app. simpl. split_and!; [done | done | lia].
  - rewrite last_cons_default in Hclose. apply NoDup_cons in Hnd as [_ Hnd].
    replace fuel
      with (length (tail ++ c :: cyc) + S (fuel - S (length (tail ++ c :: cyc))))
      by (rewrite length_app; simpl in *; lia).
    rewrite (loop_chain _ _ [] _ _ Hlinked Hnd) by (intros x _; apply not_elem_of_nil).
    rewrite app_nil_l, loop_unfold. unfold advances in Hclose. rewrite Hclose.
    rewrite bool_decide_eq_true_2 by (apply elem_of_app; right; left).
    eexists. split; [done |].
    rewrite value_ticksOver, cycleDetected_ticksOver, iterations_ticksOver.
    rewrite length_removelast_cons, length_app. simpl. split_and!; [done | done | lia].
Qed.

(** C2, as amended: the circularity check compares declaration objects by
    reference.  After the distinct selections [sel], the check fires on the
    next selection when that declaration is one of the objects of [sel], and
    the loop goes on from it when it is not, whatever [areDeclarationsSame]
    says of it and an earlier selection; an object is always the same
    declaration as itself. *)
Theorem circularity_check_by_reference d sel next fuel :
  chain X h importLookup d sel ->
  NoDup sel ->
  advances X h importLookup (List.last sel d) next ->
  (next ∈ sel ->
   exists run,
     resolveAliasDeclaration X h importLookup (S (length sel) + fuel) d = Some run
     /\ value run = Some d /\ cycleDetected run = true
     /\ iterations run = S (length sel))
  /\ (next ∉ sel ->
      resolveAliasDeclaration X h importLookup (S (length sel) + fuel) d =
      ticksOver X h importLookup (d :: sel) <$>
        resolveLoop X h importLookup fuel d next (sel ++ [next]))
  /\ areDeclarationsSame (deref h next) (deref h next) = true.
Proof.
  intros Hchain Hnd Hadv. unfold resolveAliasDeclaration. split_and!.
  - intros Hin.
    replace (S (length sel) + fuel) with (length sel + S fuel) by lia.
    rewrite (loop_chain _ _ [] _ _ Hchain Hnd) by (intros x _; apply not_elem_of_nil).
    rewrite app_nil_l, loop_unfold. unfold advances in Hadv. rewrite Hadv.
    rewrite bool_decide_eq_true_2 by done. eexists. split; [done |].
    rewrite value_ticksOver, cycleDetected_ticksOver, iterations_ticksOver.
    rewrite length_removelast_cons. simpl. split_and!; [done | done | lia].
  - intros Hnotin.
    assert (Hchain' : chain_ d (sel ++ [next])) by (apply chain_app; simpl; tauto).
    assert (Hnd' : NoDup (sel ++ [next])).
    { apply NoDup_app. split_and!; [done | | apply NoDup_singleton].
      intros x Hx ->%list_elem_of_singleton. done. }
    replace (S (length sel) + fuel) with (length (sel ++ [next]) + fuel)
      by (rewrite length_app; simpl; lia).
    rewrite (loop_chain _ _ [] _ _ Hchain' Hnd') by (intros x _; apply not_elem_of_nil).
    rewrite last_last, app_nil_l.
    change (d :: sel ++ [next]) with ((d :: sel) ++ [next]).
    by rewrite removelast_last.
  - unfold areDeclarationsSame. by rewrite !bool_decide_eq_true_2.
Qed.

End ResolveProperties.

(** *** Alias resolution on the sample programs *)

(** C1, counterexample: from declaration [0] of the first sample the
    selections reach the cycle made of declaration [2] alone, a cycle of
    length 1, after two steps; every completed run returns declaration [0]
    and takes three iterations, one more than the length of the cycle plus
    one. *)
Lemma resolveAliasDeclaration_cycle_bound_counterexample :
  reachesCycle noExternals lassoHeap lassoLookup 0 [0; 1] 2 []
  /\ (forall fuel run,
        resolveAliasDeclaration noExternals lassoHeap lassoLookup fuel 0 = Some run ->
        value run = Some 0 /\ iterations run = 3)
  /\ ~ 3 <= length [2] + 1.
Proof.
  split_and!.
  - unfold reachesCycle. split_and!; [done | by compute_done | | ]; vm_compute; done.
  - intros [|[|[|fuel]]] run; vm_compute; intros [= <-]; done.
  - simpl. lia.
Qed.

Lemma resolveAliasDeclaration_cycle_witness :
  reachesCycle noExternals lassoHeap lassoLookup 0 [0; 1] 2 []
  /\ length [0; 1] + S (length (@nil Ref)) < 4
  /\ (exists run,
        resolveAliasDeclaration noExternals lassoHeap lassoLookup 4 0 = Some run
        /\ value run = Some 0 /\ cycleDetected run = true /\ iterations run = 3)
  /\ reachesCycle noExternals lassoHeap lassoLookup 2 [] 2 []
  /\ (exists run,
        resolveAliasDeclaration noExternals lassoHeap lassoLookup 4 2 = Some run
        /\ value run = Some 2 /\ cycleDetected run = true /\ iterations run = 2).
Proof.
  assert (Hcycle : reachesCycle noExternals lassoHeap lassoLookup 0 [0; 1] 2 []).
  { unfold reachesCycle. split_and!; [done | by compute_done | | ]; vm_compute; done. }
  assert (Hfuel : length [0; 1] + S (length (@nil Ref)) < 4) by (simpl; lia).
  assert (Hself : reachesCycle noExternals lassoHeap lassoLookup 2 [] 2 []).
  { unfold reachesCycle. split_and!; [done | by compute_done | | ]; vm_compute; done. }
  assert (Hfuel' : length (@nil Ref) + S (length (@nil Ref)) < 4) by (simpl; lia).
  split_and!; [done | done | | done |].
  - exact (resolveAliasDeclaration_cycle noExternals lassoHeap lassoLookup
             0 [0; 1] 2 [] 4 Hcycle Hfuel).
  - exact (resolveAliasDeclaration_cycle noExternals lassoHeap lassoLookup
             2 [] 2 [] 4 Hself Hfuel').
Defined.

(** A circle that goes through a submodule fallback: the recursive call
    starts with an empty list of visited declarations each time round, and
    no amount of fuel lets the resolution of declaration [0] of the fourth
    sample return. *)
Lemma resolveAliasDeclaration_fallback_circle :
  forall fuel,
    resolveAliasDeclaration noExternals fallbackHeap fallbackLookup fuel 0 = None.
Proof.
  assert (Hbody0 : loopBody noExternals fallbackHeap fallbackLookup 0
                   = (Some "m", StepFallback 1)) by (vm_compute; done).
  assert (Hbody1 : loopBody noExternals fallbackHeap fallbackLookup 1
                   = (Some "n", StepAdvance 0)) by (vm_compute; done).
  assert (Hloop : forall fuel,
            resolveLoop noExternals fallbackHeap fallbackLookup fuel 1 1 [] = None
            /\ resolveLoop noExternals fallbackHeap fallbackLookup fuel 1 0 (@cons Ref 0 [])
               = None
            /\ resolveLoop noExternals fallbackHeap fallbackLookup fuel 0 0 [] = None).
  { induction fuel as [|fuel (IH1 & IH0 & _)]; [done |].
    rewrite !loop_unfold, Hbody0, Hbody1. simpl.
    by rewrite IH1, IH0. }
  intros fuel. apply Hloop.
Qed.

(** C2, counterexample: resolving declaration [0] of the second sample
    selects declarations [1], [2] and [3]; [3] is the same declaration as
    [1] for [areDeclarationsSame], yet the circularity check does not fire
    when [3] is selected: the run goes on to declaration [4] and returns
    it. *)
Lemma circularity_check_counterexample :
  chain noExternals twinHeap twinLookup 0 [1; 2; 3]
  /\ areDeclarationsSame (deref twinHeap 1) (deref twinHeap 3) = true
  /\ resolveAliasDeclaration noExternals twinHeap twinLookup 5 0
     = Some (mkRun (Some 4) 5 ["p"; "q"; "r"; "q"] false).
Proof. split_and!; vm_compute; done. Qed.

Lemma circularity_check_by_reference_witness :
  chain noExternals twinHeap twinLookup 0 [1; 2]
  /\ NoDup [1; 2]
  /\ advances noExternals twinHeap twinLookup (List.last [1; 2] 0) 3
  /\ resolveAliasDeclaration noExternals twinHeap twinLookup (S (length [1; 2]) + 2) 0
     = ticksOver noExternals twinHeap twinLookup [0; 1; 2] <$>
         resolveLoop noExternals twinHeap twinLookup 2 0 3 ([1; 2] ++ [3]).
Proof.
  assert (Hchain : chain noExternals twinHeap twinLookup 0 [1; 2])
    by (vm_compute; done).
  assert (Hnd : NoDup [1; 2]) by compute_done.
  assert (Hadv : advances noExternals twinHeap twinLookup (List.last [1; 2] 0) 3)
    by (vm_compute; done).
  split_and!; [done | done | done |].
  apply (circularity_check_by_reference noExternals twinHeap twinLookup
           0 [1; 2] 3 2 Hchain Hnd Hadv).
  by compute_done.
Defined.

Lemma resolveAliasDeclaration_terminal_idempotent_witness :
  isTerminal (deref sampleHeap 1)
  /\ resolveAliasDeclaration noExternals sampleHeap sampleLookup 1 1
     = Some (mkRun (Some 1) 1 [] false)
  /\ resolveAliasDeclaration noExternals sampleHeap sampleLookup 2 0
     = Some (mkRun (Some 3) 2 ["m"] false)
  /\ resolveAliasDeclaration noExternals sampleHeap sampleLookup 2 3
     = Some (mkRun (Some 3) 1 [] false).
Proof.
  assert (Hterm : isTerminal (deref sampleHeap 1)) by (left; vm_compute; done).
  assert (Hrun : resolveAliasDeclaration noExternals sampleHeap sampleLookup 2 0
                 = Some (mkRun (Some 3) 2 ["m"] false)) by (vm_compute; done).
  split_and!; [done | | done |].
  - exact (proj1 (resolveAliasDeclaration_terminal_idempotent
                    noExternals sampleHeap sampleLookup 1) Hterm 0).
  - exact (proj1 (proj2 (resolveAliasDeclaration_terminal_idempotent
                           noExternals sampleHeap sampleLookup 0)
                    2 _ 3 Hrun eq_refl) eq_refl).
Defined.

(** ** Properties of name resolution *)

Section NameResolutionProperties.

Variable X : Externals.
Variable h : Heap.
Variable importLookup : ImportLookup.

#[local] Abbreviation typedOf := (getTypedDeclarations X h).
#[local] Abbreviation callback := (memberAccessCallback X h importLookup).
#[local] Abbreviation memberSymbol := (lookUpMemberSymbol X importLookup).
#[local] Abbreviation declarationsFor node :=
  (getDeclarationsForNameNode X h node importLookup).

Lemma memberAccessCallback_variant memberName subtype declarations :
  callback memberName subtype declarations =
  declarations ++ variantDeclarations X h importLookup memberName subtype.
Proof.
  unfold memberAccessCallback, variantDeclarations, chosenDeclarations.
  destruct (memberSymbol memberName subtype) as [symbol|]; [|by rewrite app_nil_r].
  destruct (typedOf symbol) as [|t typed]; [done |].
  rewrite bool_decide_eq_true_2; [done | simpl; lia].
Qed.

Lemma doForSubtypes_union memberName variants declarations :
  doForSubtypes (UnionTy variants) (callback memberName) declarations =
  declarations ++ concat (map (variantDeclarations X h importLookup memberName) variants).
Proof.
  simpl. revert declarations.
  induction variants as [|v variants IH]; intros declarations; simpl.
  - by rewrite app_nil_r.
  - by rewrite IH, memberAccessCallback_variant, <- app_assoc.
Qed.

(** The member-access branch: the name is the member of its parent. *)
Lemma getDeclarationsForNameNode_member node parentId leftExpression baseType :
  parent (tree X node) = Some parentId ->
  shape (tree X parentId) = MemberAccessNode leftExpression node ->
  getExpressionType X leftExpression = Some baseType ->
  declarationsFor node =
  (Some (doForSubtypes baseType (callback (nameTokenValue (tree X node))) []), h).
Proof.
  intros Hparent Hshape Htype. unfold getDeclarationsForNameNode.
  rewrite Hparent. simpl. rewrite Hshape, Htype.
  by rewrite bool_decide_eq_true_2.
Qed.


(** C8: for the member name of a member access whose base has a union
    type, name resolution returns what the variants contribute, one after
    the other in the order of the variants. *)
Theorem member_access_on_union node parentId leftExpression variants :
  parent (tree X node) = Some parentId ->
  shape (tree X parentId) = MemberAccessNode leftExpression node ->
  getExpressionType X leftExpression = Some (UnionTy variants) ->
  getDeclarationsForNameNode X h node importLookup =
  (Some (concat (map (variantDeclarations X h importLookup (nameTokenValue (tree X node)))
                     variants)), h).
Proof.
  intros Hparent Hshape Htype.
  rewrite (getDeclarationsForNameNode_member _ _ _ _ Hparent Hshape Htype).
  by rewrite doForSubtypes_union.
Qed.


End NameResolutionProperties.

(** ** Properties of type derivation *)

Section TypeDerivationProperties.

Variable X : Externals.

#[local] Abbreviation typeFor := (getTypeForDeclaration X).

(** The enclosing enumeration class of a node, by cases on the class that
    encloses it. *)
Lemma getEnclosingEnumClass_cases node classNode enumClass :
  getEnclosingClass X node true = Some classNode ->
  getExpressionType X classNode = Some (ClassTy enumClass) ->
  _getEnclosingEnumClass X node =
  Normal (if isBuiltIn X enumClass
             && bool_decide (cd_name (details enumClass) ∈ builtInEnumClasses)
          then None
          else if isEnumClass X enumClass then Some enumClass else None).
Proof.
  intros Hclass Htype. unfold _getEnclosingEnumClass. rewrite Hclass, Htype.
  by repeat case_match.
Qed.

(** A variable whose annotation has a type attached and sits in a class. *)
Lemma getTypeForDeclaration_variable_in_class
    declaration variableNode annotation isConst typeAnnotationNode declaredType
    classNode enumClass :
  kind declaration = VariableDeclaration variableNode (Some annotation) isConst ->
  unwrapStringList X (Some annotation) = Some typeAnnotationNode ->
  getExpressionType X typeAnnotationNode = Some declaredType ->
  getEnclosingClass X typeAnnotationNode true = Some classNode ->
  getExpressionType X classNode = Some (ClassTy enumClass) ->
  typeFor declaration =
  Normal (Some (convertClassToObject X
                  (if isBuiltIn X enumClass
                      && bool_decide (cd_name (details enumClass) ∈ builtInEnumClasses)
                   then declaredType
                   else if isEnumClass X enumClass then ObjectTy enumClass
                   else declaredType))).
Proof.
  intros Hkind Hunwrap Htype Hclass Hclasstype. unfold getTypeForDeclaration.
  rewrite Hkind, Hunwrap, Htype. unfold transformTypeForPossibleEnumClass.
  rewrite (getEnclosingEnumClass_cases _ _ _ Hclass Hclasstype).
  by repeat case_match.
Qed.

(** C7: for a variable declaration whose annotation has a type attached
    and whose enclosing class derives from the enumeration base,
    [getTypeForDeclaration] returns the instance type of the enclosing class,
    class-to-instance converted, which is that instance type when the
    conversion leaves instance types alone; in a class that does not derive
    from the enumeration base, and in the built-in classes [Enum],
    [IntEnum], [Flag] and [IntFlag], it returns the type attached to the
    annotation, class-to-instance converted. *)
Theorem enum_member_transform
    declaration variableNode annotation isConst typeAnnotationNode declaredType
    classNode enumClass :
  kind declaration = VariableDeclaration variableNode (Some annotation) isConst ->
  unwrapStringList X (Some annotation) = Some typeAnnotationNode ->
  getExpressionType X typeAnnotationNode = Some declaredType ->
  getEnclosingClass X typeAnnotationNode true = Some classNode ->
  getExpressionType X classNode = Some (ClassTy enumClass) ->
  (isEnumClass X enumClass = true ->
   isBuiltIn X enumClass = false
   \/ cd_name (details enumClass) ∉ builtInEnumClasses ->
   getTypeForDeclaration X declaration
   = Normal (Some (convertClassToObject X (ObjectType.create enumClass)))
   /\ (convertClassToObject X (ObjectTy enumClass) = ObjectTy enumClass ->
       getTypeForDeclaration X declaration = Normal (Some (ObjectTy enumClass))))
  /\ (isEnumClass X enumClass = false ->
      getTypeForDeclaration X declaration
      = Normal (Some (convertClassToObject X declaredType)))
  /\ (isBuiltIn X enumClass = true ->
      cd_name (details enumClass) ∈ builtInEnumClasses ->
      getTypeForDeclaration X declaration
      = Normal (Some (convertClassToObject X declaredType))).
Proof.
  intros Hkind Hunwrap Htype Hclass Hclasstype.
  rewrite (getTypeForDeclaration_variable_in_class _ _ _ _ _ _ _ _
             Hkind Hunwrap Htype Hclass Hclasstype).
  split_and!.
  - intros Henum Hown. rewrite Henum.
    assert (isBuiltIn X enumClass
            && bool_decide (cd_name (details enumClass) ∈ builtInEnumClasses) = false)
      as ->.
    { destruct Hown as [-> | Hname]; [done |].
      rewrite (bool_decide_eq_false_2 _ Hname). apply andb_false_r. }
    split; [done |]. by intros ->.
  - intros ->. by destruct (_ && _).
  - intros -> Hname. by rewrite (bool_decide_eq_true_2 _ Hname).
Qed.

End TypeDerivationProperties.

(** ** Properties of module materialization *)

Section ModuleMaterializationProperties.

Variable X : Externals.
Variable h : Heap.
Variable importLookup : ImportLookup.

#[local] Abbreviation applyActions :=
  (_applyLoaderActionsToModuleType importLookup).

Lemma applyLoaderActions_failure moduleType loaderActions p :
  truthy (la_path loaderActions) = Some p ->
  importLookup p = None ->
  applyActions moduleType loaderActions = UnknownTy.
Proof.
  destruct loaderActions as [path implicitImports]. simpl.
  by intros -> ->.
Qed.

Lemma applyLoaderActions_success fields loaderFields docString loaderActions p res :
  truthy (la_path loaderActions) = Some p ->
  importLookup p = Some res ->
  applyActions (ModuleTy fields loaderFields docString) loaderActions =
  ModuleTy (symbolTable res)
           ((importedModuleSymbol importLookup <$> la_implicitImports loaderActions) ∪ loaderFields)
           (ilr_docString res).
Proof.
  destruct loaderActions as [path implicitImports]. simpl.
  by intros -> ->.
Qed.

(** C6: when the loader actions carry a path that [importLookup] does not
    know, the result is Unknown, whatever the module type held and whatever
    the implicit imports are; when the lookup succeeds, the module's fields
    and docstring are those of the lookup result, and an implicit import
    whose own lookup fails leaves the module in place, with Unknown as the
    type of that import's symbol. *)
Theorem failed_lookup_gives_unknown moduleType loaderActions p :
  truthy (la_path loaderActions) = Some p ->
  (importLookup p = None ->
   _applyLoaderActionsToModuleType importLookup moduleType loaderActions = UnknownTy)
  /\ (forall res fields loaderFields docString,
        importLookup p = Some res ->
        moduleType = ModuleTy fields loaderFields docString ->
        _applyLoaderActionsToModuleType importLookup moduleType loaderActions
        = ModuleTy (symbolTable res)
                   ((importedModuleSymbol importLookup <$> la_implicitImports loaderActions)
                    ∪ loaderFields)
                   (ilr_docString res))
  /\ (forall nested q,
        truthy (la_path nested) = Some q ->
        importLookup q = None ->
        importedModuleSymbol importLookup nested
        = createWithType SymbolFlags.None_ UnknownTy).
Proof.
  intros Hpath. split_and!.
  - intros Hlook. by apply applyLoaderActions_failure with p.
  - intros res fields loaderFields docString Hlook ->.
    by apply applyLoaderActions_success with p.
  - intros nested q Hq Hfail. unfold importedModuleSymbol.
    by rewrite (applyLoaderActions_failure _ _ _ Hq Hfail).
Qed.

(** C5: when the declaration that alias resolution returns is an alias
    without symbol name, with a path that [importLookup] knows,
    [getInferredTypeOfDeclaration] returns a module type whose fields and
    docstring are those of the lookup result for that path, and whose loader
    fields bind the names of the implicit imports, and only those, each to a
    symbol with the type built from the nested loader actions: a module type
    with the fields of the nested path when its lookup succeeds. *)
Theorem module_materialization fuel decl run resolved sn fb imps p res :
  resolveAliasDeclaration X h importLookup fuel decl = Some run ->
  value run = Some resolved ->
  kind (deref h resolved) = AliasDeclaration sn fb imps ->
  truthy sn = None ->
  truthy (path (deref h resolved)) = Some p ->
  importLookup p = Some res ->
  getInferredTypeOfDeclaration X h fuel decl importLookup
  = Some (Normal (Some (ModuleTy (symbolTable res)
                                 (importedModuleSymbol importLookup <$> imps)
                                 (ilr_docString res))))
  /\ (forall name,
        (importedModuleSymbol importLookup <$> imps) !! name
        = importedModuleSymbol importLookup <$> imps !! name)
  /\ (forall name nested q res',
        imps !! name = Some nested ->
        truthy (la_path nested) = Some q ->
        importLookup q = Some res' ->
        importedModuleSymbol importLookup nested
        = createWithType SymbolFlags.None_
            (ModuleTy (symbolTable res')
                      (importedModuleSymbol importLookup <$> la_implicitImports nested)
                      (ilr_docString res'))).
Proof.
  intros Hrun Hval Hkind Hsn Hpath Hlook. split_and!.
  - unfold getInferredTypeOfDeclaration. rewrite Hrun. simpl.
    rewrite Hval, Hkind, Hsn, Hpath, Hlook. simpl.
    by rewrite (right_id_L ∅ (∪)).
  - intros name. apply lookup_fmap.
  - intros name nested q res' _ Hq Hlook'.
    unfold importedModuleSymbol at 1. unfold ModuleType.create.
    rewrite (applyLoaderActions_success _ _ _ _ q res' Hq Hlook').
    by rewrite (right_id_L ∅ (∪)).
Qed.

End ModuleMaterializationProperties.

(** *** Name resolution, type derivation and module materialization on
    the sample programs *)


Lemma member_access_on_union_witness :
  getExpressionType sampleExternals 102
  = Some (UnionTy [ClassTy (classNamed "A"); FunctionTy "f"; ObjectTy (classNamed "B")])
  /\ getDeclarationsForNameNode sampleExternals sampleHeap 100 sampleLookup
     = (Some (concat [[2; 3]; []; [1; 4]]), sampleHeap).
Proof.
  split; [by vm_compute |].
  exact (member_access_on_union sampleExternals sampleHeap sampleLookup 100 101 102
           [ClassTy (classNamed "A"); FunctionTy "f"; ObjectTy (classNamed "B")]
           eq_refl eq_refl eq_refl).
Defined.



Lemma enum_member_transform_witness :
  getTypeForDeclaration sampleExternals (variableIn "m" 5 (Some 200) (at_ 1 4))
  = Normal (Some (ObjectTy (classNamed "Color")))
  /\ getTypeForDeclaration sampleExternals (variableIn "m" 5 (Some 210) (at_ 1 4))
     = Normal (Some (ObjectTy (classNamed "int")))
  /\ getTypeForDeclaration sampleExternals (variableIn "m" 5 (Some 220) (at_ 1 4))
     = Normal (Some (ObjectTy (classNamed "int"))).
Proof.
  split_and!.
  - refine (proj2 (proj1 (enum_member_transform sampleExternals
                            (variableIn "m" 5 (Some 200) (at_ 1 4)) 5 200 false 200
                            (ClassTy (classNamed "int")) 201 (classNamed "Color")
                            eq_refl eq_refl eq_refl eq_refl eq_refl) _ _) _);
      [by vm_compute | left; by vm_compute | by vm_compute].
  - refine (proj1 (proj2 (enum_member_transform sampleExternals
                            (variableIn "m" 5 (Some 210) (at_ 1 4)) 5 210 false 210
                            (ClassTy (classNamed "int")) 211 (classNamed "Plain")
                            eq_refl eq_refl eq_refl eq_refl eq_refl)) _);
      by vm_compute.
  - refine (proj2 (proj2 (enum_member_transform sampleExternals
                            (variableIn "m" 5 (Some 220) (at_ 1 4)) 5 220 false 220
                            (ClassTy (classNamed "int")) 221 (classNamed "Enum")
                            eq_refl eq_refl eq_refl eq_refl eq_refl)) _ _);
      [by vm_compute | by compute_done].
Defined.

Lemma failed_lookup_gives_unknown_witness :
  truthy (la_path (loaderActionsOf (deref pkgHeap 1))) = Some "gone"
  /\ pkgLookup "gone" = None
  /\ _applyLoaderActionsToModuleType pkgLookup ModuleType.create
       (loaderActionsOf (deref pkgHeap 1)) = UnknownTy.
Proof.
  split_and!; [by vm_compute | by vm_compute |].
  refine (proj1 (failed_lookup_gives_unknown pkgLookup ModuleType.create
                   (loaderActionsOf (deref pkgHeap 1)) "gone" _) _);
    by vm_compute.
Defined.

Lemma module_materialization_witness :
  getInferredTypeOfDeclaration noExternals pkgHeap 1 0 pkgLookup
  = Some (Normal (Some (ModuleTy
                          {[ "x" := symbolOf [5] ]}
                          {[ "sub" := createWithType SymbolFlags.None_
                                        (ModuleTy {[ "y" := symbolOf [6] ]} ∅ None) ]}
                          (Some "The package.")))).
Proof.
  pose proof (module_materialization noExternals pkgHeap pkgLookup 1 0
                (mkRun (Some 0) 1 [] false) 0 None None
                {[ "sub" := mkModuleLoaderActions (Some "pkg/sub") ∅ ]}
                "pkg/__init__"
                (mkImportLookupResult {[ "x" := symbolOf [5] ]} (Some "The package."))
                eq_refl eq_refl eq_refl eq_refl eq_refl eq_refl) as [Htype _].
  rewrite Htype. by vm_compute.
Defined.

(** ** Further properties of alias resolution *)

Section ResolveFurther.

Variable X : Externals.
Variable h : Heap.
Variable importLookup : ImportLookup.

#[local] Abbreviation body := (loopBody X h importLookup).
#[local] Abbreviation loop := (resolveLoop X h importLookup).
#[local] Abbreviation resolve := (resolveAliasDeclaration X h importLookup).
#[local] Abbreviation adv := (advances X h importLookup).
#[local] Abbreviation chain_ := (chain X h importLookup).
#[local] Abbreviation ticks := (ticksOver X h importLookup).

Lemma last_app_cons (l1 l2 : list Ref) (c d : Ref) :
  List.last (l1 ++ c :: l2) d = List.last l2 c.
Proof.
  revert d. induction l1 as [|a l1 IH]; intros d; simpl app.
  - apply last_cons_default.
  - rewrite last_cons_default. apply IH.
Qed.

Lemma lookups_ticksOver_le curs r :
  length (lookups (ticks curs r)) <= length curs + length (lookups r).
Proof.
  induction curs as [|c curs IH]; simpl; [lia |].
  rewrite length_app. destruct (body c).1; simpl; lia.
Qed.

(** A declaration from which the loop does not move on to another one. *)
#[local] Abbreviation stops z := (forall b, ~ adv z b).

Lemma chain_stops_unique l1 : forall a l2,
  chain_ a l1 -> chain_ a l2 ->
  stops (List.last l1 a) -> stops (List.last l2 a) ->
  l1 = l2.
Proof.
  induction l1 as [|b l1 IH]; intros a l2 H1 H2 Hs1 Hs2.
  - destruct l2 as [|b l2]; [done |]. destruct H2 as [Hadv _].
    by destruct (Hs1 b).
  - destruct H1 as [Hadv1 H1]. destruct l2 as [|b' l2].
    + by destruct (Hs2 b).
    + destruct H2 as [Hadv2 H2]. unfold advances in *.
      rewrite Hadv1 in Hadv2. injection Hadv2 as <-.
      rewrite last_cons_default in Hs1, Hs2. f_equal. by apply (IH b).
Qed.

(** The selections that lead to a declaration where the loop stops are
    distinct declarations. *)
Lemma chain_stops_NoDup sel : forall a,
  chain_ a sel -> stops (List.last sel a) -> NoDup sel.
Proof.
  induction sel as [|b sel IH]; intros a Hchain Hstops; [apply NoDup_nil_2 |].
  destruct Hchain as [Hadv Hchain]. rewrite last_cons_default in Hstops.
  apply NoDup_cons. split; [|by apply (IH b)].
  intros (l1 & l2 & Heq)%list_elem_of_split.
  assert (Hchain2 : chain_ b l2).
  { rewrite Heq in Hchain.
    change (l1 ++ b :: l2) with (l1 ++ [b] ++ l2) in Hchain.
    rewrite app_assoc in Hchain. apply chain_app in Hchain as [_ Hchain].
    by rewrite last_last in Hchain. }
  assert (Hlast : List.last sel b = List.last l2 b)
    by (rewrite Heq; apply last_app_cons).
  assert (sel = l2) as Hsame.
  { apply (chain_stops_unique sel b l2); [done | done | done |].
    by rewrite <- Hlast. }
  apply (f_equal length) in Heq. rewrite Hsame, length_app in Heq.
  simpl in Heq. lia.
Qed.

Lemma terminal_stops z : isTerminal (deref h z) -> stops z.
Proof.
  intros Hterm b. unfold advances. by rewrite (loopBody_terminal _ _ _ _ Hterm).
Qed.

(** C4: from the symbol it finds, [resolveAliasDeclaration] advances to
    the last element of the declaration list it selects from, the element
    at index [length - 1], and to no other declaration.  The run goes on
    from that element: when the element is not an alias to resolve further,
    the run returns it, after two iterations and the one lookup; when the
    selections [sel] made from it end at such a declaration, the run returns
    the declaration at their end, after one iteration per declaration met.
    The same holds wherever in a resolution the symbol is met: the loop
    returns a last element that needs no further resolution, leaves through
    the circularity check when the last element was selected before, and
    goes on from it otherwise. *)
Theorem resolveAliasDeclaration_advances_to_last
    cur sn fb imps curSymbolName p res symbol next :
  kind (deref h cur) = AliasDeclaration sn fb imps ->
  truthy sn = Some curSymbolName ->
  truthy (path (deref h cur)) = Some p ->
  importLookup p = Some res ->
  symbolTable res !! curSymbolName = Some symbol ->
  chosenDeclarations X h symbol !! (length (chosenDeclarations X h symbol) - 1)
    = Some next ->
  loopBody X h importLookup cur = (Some p, StepAdvance next)
  /\ (forall other, advances X h importLookup cur other -> other = next)
  /\ (isTerminal (deref h next) ->
      forall fuel,
        resolveAliasDeclaration X h importLookup (S (S fuel)) cur
        = Some (mkRun (Some next) 2 [p] false))
  /\ (forall sel fuel,
        chain X h importLookup next sel ->
        isTerminal (deref h (List.last sel next)) ->
        S (length sel) < fuel ->
        exists run,
          resolveAliasDeclaration X h importLookup fuel cur = Some run
          /\ value run = Some (List.last sel next)
          /\ iterations run = S (S (length sel))
          /\ (exists rest, lookups run = p :: rest)
          /\ cycleDetected run = false)
  /\ (forall fuel declaration visited,
        (isTerminal (deref h next) -> next ∉ visited ->
         resolveLoop X h importLookup (S (S fuel)) declaration cur visited
         = Some (mkRun (Some next) 2 [p] false))
        /\ (next ∈ visited ->
            resolveLoop X h importLookup (S fuel) declaration cur visited
            = Some (mkRun (Some declaration) 1 [p] true))
        /\ (next ∉ visited ->
            resolveLoop X h importLookup (S fuel) declaration cur visited =
            tick (Some p) <$>
              resolveLoop X h importLookup fuel declaration next (visited ++ [next]))).
Proof.
  intros Hkind Hsn Hpath Hlook Hsym Hlast.
  assert (Hbody : body cur = (Some p, StepAdvance next)).
  { rewrite (loopBody_found X h importLookup _ _ _ _ _ _ _ _
               Hkind Hsn Hpath Hlook Hsym).
    rewrite last_lookup.
    replace (pred (length (chosenDeclarations X h symbol)))
      with (length (chosenDeclarations X h symbol) - 1) by lia.
    by rewrite Hlast. }
  assert (Hstep : forall fuel declaration visited,
             next ∉ visited ->
             loop (S fuel) declaration cur visited =
             tick (Some p) <$> loop fuel declaration next (visited ++ [next])).
  { intros fuel declaration visited Hfresh.
    rewrite loop_unfold, Hbody. simpl. by rewrite bool_decide_eq_false_2. }
  assert (Hreturn : isTerminal (deref h next) ->
             forall fuel declaration visited,
               next ∉ visited ->
               loop (S (S fuel)) declaration cur visited
               = Some (mkRun (Some next) 2 [p] false)).
  { intros Hterm fuel declaration visited Hfresh.
    rewrite (Hstep _ _ _ Hfresh).
    by rewrite (loop_terminal X h importLookup _ _ _ _ Hterm). }
  split_and!.
  - done.
  - intros other Hadv. unfold advances in Hadv. rewrite Hbody in Hadv.
    by injection Hadv.
  - intros Hterm fuel. unfold resolveAliasDeclaration.
    apply (Hreturn Hterm). apply not_elem_of_nil.
  - intros sel fuel Hchain Hterm Hfuel.
    assert (Hchain' : chain_ cur (next :: sel)).
    { split; [unfold advances; by rewrite Hbody | done]. }
    assert (Hterm' : isTerminal (deref h (List.last (next :: sel) cur)))
      by (by rewrite last_cons_default).
    pose proof (chain_stops_NoDup _ _ Hchain' (terminal_stops _ Hterm')) as Hnd.
    unfold resolveAliasDeclaration.
    replace fuel with (length (next :: sel) + S (fuel - S (S (length sel))))
      by (simpl; lia).
    rewrite (loop_chain _ _ _ _ _ [] _ _ Hchain' Hnd)
      by (intros x _; apply not_elem_of_nil).
    rewrite (loop_terminal _ _ _ _ _ _ _ Hterm'). eexists. split; [done |].
    rewrite value_ticksOver, iterations_ticksOver, cycleDetected_ticksOver.
    rewrite length_removelast_cons, last_cons_default.
    split_and!; [done | simpl; lia | | done].
    change (removelast (cur :: next :: sel)) with (cur :: removelast (next :: sel)).
    cbn [ticksOver foldr]. rewrite Hbody. cbn [fst tick lookups option_list app].
    by eexists.
  - intros fuel declaration visited. split_and!.
    + intros Hterm Hfresh. by apply Hreturn.
    + intros Hin. rewrite loop_unfold, Hbody. simpl.
      by rewrite bool_decide_eq_true_2.
    + apply Hstep.
Qed.

(** X1: a chain of alias selections that ends at a declaration that is not
    an alias, or at an alias without symbol name, is followed to its end:
    that declaration is returned, after one iteration per declaration met,
    with at most one lookup per alias, and not through the circularity
    check. *)
Theorem resolveAliasDeclaration_follows_chain d sel fuel :
  chain X h importLookup d sel ->
  isTerminal (deref h (List.last sel d)) ->
  length sel < fuel ->
  exists run,
    resolveAliasDeclaration X h importLookup fuel d = Some run
    /\ value run = Some (List.last sel d)
    /\ iterations run = S (length sel)
    /\ length (lookups run) <= length sel
    /\ cycleDetected run = false.
Proof.
  intros Hchain Hterm Hfuel.
  pose proof (chain_stops_NoDup _ _ Hchain (terminal_stops _ Hterm)) as Hnd.
  unfold resolveAliasDeclaration.
  replace fuel with (length sel + S (fuel - S (length sel))) by lia.
  rewrite (loop_chain _ _ _ _ _ [] _ _ Hchain Hnd)
    by (intros x _; apply not_elem_of_nil).
  rewrite (loop_terminal _ _ _ _ _ _ _ Hterm). eexists. split; [done |].
  pose proof (lookups_ticksOver_le (removelast (d :: sel))
                (mkRun (Some (List.last sel d)) 1 [] false)) as Hle.
  rewrite value_ticksOver, iterations_ticksOver, cycleDetected_ticksOver.
  rewrite length_removelast_cons in *. simpl in *.
  split_and!; [done | lia | lia | done].
Qed.

Lemma lookups_ticksOver curs r :
  exists before, lookups (ticks curs r) = before ++ lookups r.
Proof.
  induction curs as [|c curs [before IH]]; simpl.
  - by exists [].
  - exists (option_list (body c).1 ++ before). by rewrite IH, app_assoc.
Qed.

Lemma loopBody_lookup_failure z sn fb imps curSymbolName p :
  kind (deref h z) = AliasDeclaration sn fb imps ->
  truthy sn = Some curSymbolName ->
  truthy (path (deref h z)) = Some p ->
  importLookup p = None ->
  body z = (Some p, StepReturn None).
Proof.
  intros Hkind Hsn Hpath Hlook. unfold loopBody.
  by rewrite Hkind, Hsn, Hpath, Hlook.
Qed.

(** X2: when the chain of alias selections arrives at an alias whose
    module [importLookup] does not know, the resolution returns absent on
    the spot, whether or not that alias has a submodule fallback; the failed
    lookup is the last call of [importLookup]. *)
Theorem failed_lookup_ends_resolution d sel sn fb imps curSymbolName p fuel :
  chain X h importLookup d sel ->
  kind (deref h (List.last sel d)) = AliasDeclaration sn fb imps ->
  truthy sn = Some curSymbolName ->
  truthy (path (deref h (List.last sel d))) = Some p ->
  importLookup p = None ->
  length sel < fuel ->
  exists run,
    resolveAliasDeclaration X h importLookup fuel d = Some run
    /\ value run = None
    /\ iterations run = S (length sel)
    /\ last (lookups run) = Some p
    /\ cycleDetected run = false.
Proof.
  intros Hchain Hkind Hsn Hpath Hlook Hfuel.
  pose proof (loopBody_lookup_failure _ _ _ _ _ _ Hkind Hsn Hpath Hlook) as Hbody.
  assert (Hnd : NoDup sel).
  { apply (chain_stops_NoDup _ _ Hchain). intros b. unfold advances.
    by rewrite Hbody. }
  unfold resolveAliasDeclaration.
  replace fuel with (length sel + S (fuel - S (length sel))) by lia.
  rewrite (loop_chain _ _ _ _ _ [] _ _ Hchain Hnd)
    by (intros x _; apply not_elem_of_nil).
  rewrite loop_unfold, Hbody. cbn [fst snd]. eexists. split; [done |].
  destruct (lookups_ticksOver (removelast (d :: sel))
              (tick (Some p) (mkRun None 0 [] false))) as [before Hbefore].
  rewrite value_ticksOver, iterations_ticksOver, cycleDetected_ticksOver, Hbefore.
  rewrite length_removelast_cons. simpl. split_and!; [done | lia | | done].
  apply last_snoc.
Qed.


Lemma loop_lookups_le fuel : forall declaration cur visited run,
  loop fuel declaration cur visited = Some run ->
  1 <= iterations run /\ length (lookups run) <= iterations run.
Proof.
  induction fuel as [|fuel IH]; intros declaration cur visited run; [done |].
  rewrite loop_unfold.
  assert (Hone : length (option_list (body cur).1) <= 1)
    by (destruct (body cur).1; simpl; lia).
  destruct (body cur).2 as [result | fallback | next].
  - intros [= <-]. simpl. rewrite length_app. simpl. lia.
  - destruct (loop fuel fallback fallback []) as [run0|] eqn:Hrec; [|done].
    intros [= <-]. apply IH in Hrec. simpl. rewrite length_app. lia.
  - case_bool_decide.
    + intros [= <-]. simpl. rewrite length_app. simpl. lia.
    + destruct (loop fuel declaration next (visited ++ [next])) as [run0|] eqn:Hrec;
        [|done].
      intros [= <-]. apply IH in Hrec. simpl. rewrite length_app. lia.
Qed.

(** X4: a resolution that returns ran at least one iteration of the loop
    and called [importLookup] at most once per iteration. *)
Theorem one_lookup_per_iteration fuel d run :
  resolveAliasDeclaration X h importLookup fuel d = Some run ->
  1 <= iterations run /\ length (lookups run) <= iterations run.
Proof. apply loop_lookups_le. Qed.

Lemma moving_on_namesSymbol cur :
  (forall result, (body cur).2 <> StepReturn (Some result)) -> namesSymbol h cur.
Proof.
  unfold namesSymbol, loopBody. intros Hmove.
  destruct (kind (deref h cur)) as [| | | | | |sn fb imps];
    try (by destruct (Hmove cur)).
  destruct (truthy sn) as [curSymbolName|] eqn:Hsn; [by eauto 6 |].
  by destruct (Hmove cur).
Qed.

Lemma loop_cycle_result fuel : forall declaration cur visited run,
  loop fuel declaration cur visited = Some run ->
  cycleDetected run = true ->
  cur = declaration \/ namesSymbol h declaration ->
  exists r, value run = Some r /\ namesSymbol h r.
Proof.
  induction fuel as [|fuel IH]; intros declaration cur visited run; [done |].
  rewrite loop_unfold.
  destruct (body cur).2 as [result | fallback | next] eqn:Hstep.
  - by intros [= <-].
  - destruct (loop fuel fallback fallback []) as [run0|] eqn:Hrec; [|done].
    intros [= <-] Hcycle _. apply (IH _ _ _ _ Hrec Hcycle). by left.
  - assert (Hcur : namesSymbol h cur).
    { apply moving_on_namesSymbol. intros result. by rewrite Hstep. }
    intros Hrun Hcycle Hinv.
    assert (Hdecl : namesSymbol h declaration) by (by destruct Hinv as [<- | ?]).
    case_bool_decide.
    + injection Hrun as <-. by exists declaration.
    + destruct (loop fuel declaration next (visited ++ [next])) as [run0|] eqn:Hrec;
        [|done].
      injection Hrun as <-. apply (IH _ _ _ _ Hrec Hcycle). by right.
Qed.

(** X5: a declaration that [resolveAliasDeclaration] returns through the
    circularity check is an alias that still names a symbol: the chase gave
    up, it did not arrive. *)
Theorem cycle_result_names_symbol fuel d run :
  resolveAliasDeclaration X h importLookup fuel d = Some run ->
  cycleDetected run = true ->
  exists r, value run = Some r /\ namesSymbol h r.
Proof.
  intros Hrun Hcycle. apply (loop_cycle_result _ _ _ _ _ Hrun Hcycle). by left.
Qed.

(** X6: when alias resolution ends through the circularity check,
    [getInferredTypeOfDeclaration] gives no type if the alias returned has
    no submodule fallback, and otherwise the type built from the loader
    actions of the fallback alone, not from the path and the implicit
    imports of the alias itself. *)
Theorem inferred_type_after_cycle fuel d run :
  resolveAliasDeclaration X h importLookup fuel d = Some run ->
  cycleDetected run = true ->
  exists r sn fallback imps,
    value run = Some r
    /\ kind (deref h r) = AliasDeclaration sn fallback imps
    /\ getInferredTypeOfDeclaration X h fuel d importLookup =
       Some (Normal
               match fallback with
               | Some fb =>
                   Some (_applyLoaderActionsToModuleType importLookup
                           ModuleType.create (loaderActionsOf (deref h fb)))
               | None => None
               end).
Proof.
  intros Hrun Hcycle.
  destruct (loop_cycle_result _ _ _ _ _ Hrun Hcycle (or_introl eq_refl))
    as (r & Hval & sn & fb & imps & curSymbolName & Hkind & Hsn).
  exists r, sn, fb, imps. split_and!; [done | done |].
  unfold getInferredTypeOfDeclaration. rewrite Hrun. cbn [mbind option_bind].
  rewrite Hval, Hkind, Hsn. destruct fb as [fb|]; [done |].
  unfold getTypeForDeclaration. by rewrite Hkind.
Qed.

End ResolveFurther.

(** The import of [t] from module [m] in the sample: the symbol has the
    three typed declarations [2], [3] and [5], and the resolution returns
    the last one, the class. *)
Lemma resolveAliasDeclaration_advances_to_last_witness :
  chosenDeclarations noExternals sampleHeap (symbolOf [2; 3; 5]) = [2; 3; 5]
  /\ isTerminal (deref sampleHeap 5)
  /\ loopBody noExternals sampleHeap sampleLookup 8 = (Some "m", StepAdvance 5)
  /\ resolveAliasDeclaration noExternals sampleHeap sampleLookup 2 8
     = Some (mkRun (Some 5) 2 ["m"] false).
Proof.
  assert (Hterm : isTerminal (deref sampleHeap 5)) by (left; vm_compute; done).
  pose proof (resolveAliasDeclaration_advances_to_last noExternals sampleHeap
                sampleLookup 8 (Some "t") None ∅ "t" "m"
                (mkImportLookupResult
                   {[ "f" := symbolOf [1; 2; 3; 4]; "g" := symbolOf [1; 4];
                      "e" := symbolOf []; "t" := symbolOf [2; 3; 5] ]} None)
                (symbolOf [2; 3; 5]) 5
                eq_refl eq_refl eq_refl eq_refl eq_refl eq_refl)
    as (Hbody & _ & Hrun & _).
  split_and!; [by vm_compute | done | exact Hbody | exact (Hrun Hterm 0)].
Defined.


(** ** Further properties of type derivation *)

Section TypeDerivationFurther.

Variable X : Externals.

Lemma getTypeForDeclaration_untyped declaration :
  hasTypeForDeclaration X declaration = false ->
  getTypeForDeclaration X declaration = Normal None.
Proof.
  unfold hasTypeForDeclaration, getTypeForDeclaration.
  destruct (kind declaration) as [| | | |node|node annotation c|]; try done.
  - intros Hnone%bool_decide_eq_false.
    destruct (typeAnnotationOf (tree X node)); [by destruct Hnone |]. done.
  - intros Hnone%bool_decide_eq_false.
    destruct annotation; [by destruct Hnone |]. done.
Qed.

(** X7: [hasTypeForDeclaration] never says no to a declaration for which
    [getTypeForDeclaration] has a type: when it returns false,
    [getTypeForDeclaration] returns absent, without throwing. *)
Theorem untyped_declaration_has_no_type declaration :
  hasTypeForDeclaration X declaration = false ->
  getTypeForDeclaration X declaration = Normal None.
Proof. apply getTypeForDeclaration_untyped. Qed.

Lemma getEnclosingEnumClass_result node result :
  _getEnclosingEnumClass X node = Normal (Some result) ->
  exists classNode,
    getEnclosingClass X node true = Some classNode
    /\ getExpressionType X classNode = Some (ClassTy result)
    /\ isEnumClass X result = true
    /\ (isBuiltIn X result = false
        \/ cd_name (details result) ∉ builtInEnumClasses).
Proof.
  unfold _getEnclosingEnumClass.
  destruct (getEnclosingClass X node true) as [classNode|]; [|done].
  destruct (getExpressionType X classNode) as [[]|] eqn:Htype; try done.
  destruct (isBuiltIn X classType) eqn:Hbuiltin; simpl.
  - case_bool_decide as Hname; [done |].
    destruct (isEnumClass X classType) eqn:Henum; [|done].
    intros [= <-]. exists classNode. split_and!; [done | done | done | by right].
  - destruct (isEnumClass X classType) eqn:Henum; [|done].
    intros [= <-]. exists classNode. split_and!; [done | done | done | by left].
Qed.

Lemma getEnclosingEnumClass_throws node :
  _getEnclosingEnumClass X node = Throw <->
  exists classNode,
    getEnclosingClass X node true = Some classNode
    /\ forall classType, getExpressionType X classNode <> Some (ClassTy classType).
Proof.
  unfold _getEnclosingEnumClass. split.
  - destruct (getEnclosingClass X node true) as [classNode|]; [|done].
    intros Hthrow. exists classNode. split; [done |]. intros classType Htype.
    rewrite Htype in Hthrow. by repeat case_match.
  - intros (classNode & -> & Hno).
    destruct (getExpressionType X classNode) as [[]|]; try done.
    by destruct (Hno classType).
Qed.

(** X8: when it completes, [transformTypeForPossibleEnumClass] returns
    either the type it was given or the instance type of the class that
    encloses the node, and the latter only for a class for which
    [isEnumClass] holds and which is not one of the built-in classes [Enum],
    [IntEnum], [Flag] and [IntFlag]. *)
Theorem transform_returns_given_or_enum_instance node typeOfExpr result :
  transformTypeForPossibleEnumClass X node typeOfExpr = Normal result ->
  result = typeOfExpr
  \/ exists classNode enumClass,
       getEnclosingClass X node true = Some classNode
       /\ getExpressionType X classNode = Some (ClassTy enumClass)
       /\ result = ObjectTy enumClass
       /\ isEnumClass X enumClass = true
       /\ (isBuiltIn X enumClass = false
           \/ cd_name (details enumClass) ∉ builtInEnumClasses).
Proof.
  unfold transformTypeForPossibleEnumClass.
  destruct (_getEnclosingEnumClass X node) as [[enumClass|]|] eqn:Henum;
    cbn [mbind Completion_bind]; [| |done].
  - intros [= <-]. right.
    destruct (getEnclosingEnumClass_result _ _ Henum) as (classNode & ? & ? & ? & ?).
    by exists classNode, enumClass.
  - intros [= <-]. by left.
Qed.

(** X9: [transformTypeForPossibleEnumClass] throws exactly when a class
    encloses the node and the type attached to the class node is missing or
    is not a class; [getTypeForDeclaration] then throws for a variable whose
    annotation sits there and has a type attached, and only then. *)
Theorem enum_transform_throws_iff node typeOfExpr :
  (transformTypeForPossibleEnumClass X node typeOfExpr = Throw <->
   exists classNode,
     getEnclosingClass X node true = Some classNode
     /\ forall classType, getExpressionType X classNode <> Some (ClassTy classType))
  /\ forall declaration variableNode annotation isConst,
       kind declaration = VariableDeclaration variableNode annotation isConst ->
       unwrapStringList X annotation = Some node ->
       getExpressionType X node = Some typeOfExpr ->
       (getTypeForDeclaration X declaration = Throw <->
        transformTypeForPossibleEnumClass X node typeOfExpr = Throw).
Proof.
  assert (Hiff : transformTypeForPossibleEnumClass X node typeOfExpr = Throw
                 <-> _getEnclosingEnumClass X node = Throw).
  { unfold transformTypeForPossibleEnumClass.
    destruct (_getEnclosingEnumClass X node) as [[?|]|]; by cbn. }
  split.
  - rewrite Hiff. apply getEnclosingEnumClass_throws.
  - intros declaration variableNode annotation isConst Hkind Hunwrap Htype.
    unfold getTypeForDeclaration. rewrite Hkind, Hunwrap, Htype.
    destruct (transformTypeForPossibleEnumClass X node typeOfExpr); by cbn.
Qed.

(** X10: [areDeclarationsSame] holds exactly for declarations of the same
    kind, path and start position, whatever their other fields and the end
    of their range; it is reflexive, symmetric and transitive. *)
Theorem areDeclarationsSame_equivalence :
  (forall d1 d2,
     areDeclarationsSame d1 d2 = true <->
     type d1 = type d2 /\ path d1 = path d2
     /\ start (range d1) = start (range d2))
  /\ (forall d, areDeclarationsSame d d = true)
  /\ (forall d1 d2, areDeclarationsSame d1 d2 = areDeclarationsSame d2 d1)
  /\ (forall d1 d2 d3,
        areDeclarationsSame d1 d2 = true ->
        areDeclarationsSame d2 d3 = true ->
        areDeclarationsSame d1 d3 = true).
Proof.
  assert (Hiff : forall d1 d2,
            areDeclarationsSame d1 d2 = true <->
            type d1 = type d2 /\ path d1 = path d2
            /\ start (range d1) = start (range d2)).
  { intros d1 d2. unfold areDeclarationsSame.
    destruct (start (range d1)) as [l1 c1], (start (range d2)) as [l2 c2]. simpl.
    repeat case_bool_decide; simpl; split; try done;
      try (intros (? & ? & [= ? ?]); done).
    intros _. by subst. }
  split_and!; [done | | |].
  - intros d. by apply Hiff.
  - intros d1 d2. destruct (areDeclarationsSame d2 d1) eqn:H21.
    + apply Hiff. apply Hiff in H21 as (? & ? & ?). done.
    + destruct (areDeclarationsSame d1 d2) eqn:H12; [|done].
      apply Hiff in H12 as (? & ? & ?).
      assert (areDeclarationsSame d2 d1 = true) by (by apply Hiff). congruence.
  - intros d1 d2 d3 (? & ? & ?)%Hiff (? & ? & ?)%Hiff. apply Hiff.
    split_and!; congruence.
Qed.

End TypeDerivationFurther.

(** ** Further properties of type inference and module materialization *)

Section InferenceFurther.

Variable X : Externals.
Variable h : Heap.
Variable importLookup : ImportLookup.

#[local] Abbreviation applyActions :=
  (_applyLoaderActionsToModuleType importLookup).



Lemma applyLoaderActions_cases fields loaderFields docString loaderActions :
  applyActions (ModuleTy fields loaderFields docString) loaderActions =
  match truthy (la_path loaderActions) with
  | Some p =>
      match importLookup p with
      | Some res =>
          ModuleTy (symbolTable res)
            ((importedModuleSymbol importLookup <$> la_implicitImports loaderActions)
             ∪ loaderFields)
            (ilr_docString res)
      | None => UnknownTy
      end
  | None =>
      ModuleTy fields
        ((importedModuleSymbol importLookup <$> la_implicitImports loaderActions)
         ∪ loaderFields)
        docString
  end.
Proof.
  destruct loaderActions as [path implicitImports]. simpl.
  destruct (truthy path) as [p|]; [|done]. by destruct (importLookup p).
Qed.

(** X12: applied to a module type, the loader actions give Unknown exactly
    when they carry a path that [importLookup] does not know; a failing
    lookup further down, in an implicit import, never turns the module
    itself into Unknown. *)
Theorem unknown_iff_own_lookup_fails fields loaderFields docString loaderActions :
  _applyLoaderActionsToModuleType importLookup
    (ModuleTy fields loaderFields docString) loaderActions = UnknownTy
  <-> exists p, truthy (la_path loaderActions) = Some p /\ importLookup p = None.
Proof.
  rewrite applyLoaderActions_cases. split.
  - destruct (truthy (la_path loaderActions)) as [p|]; [|done].
    destruct (importLookup p) eqn:Hlook; [done |]. by exists p.
  - by intros (p & -> & ->).
Qed.

(** X13: when the result is a module type, its loader fields are those
    the module type had, with every name of an implicit import bound to the
    symbol built for that import, also over an earlier loader field of that
    name; without a path, its fields and docstring are left as they were. *)
Theorem loader_fields_are_merged
    fields loaderFields docString loaderActions fields' loaderFields' docString' :
  _applyLoaderActionsToModuleType importLookup
    (ModuleTy fields loaderFields docString) loaderActions
  = ModuleTy fields' loaderFields' docString' ->
  (forall name,
     loaderFields' !! name =
     match la_implicitImports loaderActions !! name with
     | Some implicitImport => Some (importedModuleSymbol importLookup implicitImport)
     | None => loaderFields !! name
     end)
  /\ (truthy (la_path loaderActions) = None ->
      fields' = fields /\ docString' = docString).
Proof.
  rewrite applyLoaderActions_cases. intros Hresult.
  assert (loaderFields' =
          (importedModuleSymbol importLookup <$> la_implicitImports loaderActions)
          ∪ loaderFields
          /\ (truthy (la_path loaderActions) = None ->
              fields' = fields /\ docString' = docString)) as [-> Hsame].
  { destruct (truthy (la_path loaderActions)) as [p|].
    - destruct (importLookup p); [|done]. by injection Hresult as <- <- <-.
    - by injection Hresult as <- <- <-. }
  split; [|done]. intros name. rewrite lookup_union, lookup_fmap.
  destruct (la_implicitImports loaderActions !! name); simpl.
  - by destruct (loaderFields !! name).
  - by destruct (loaderFields !! name).
Qed.

End InferenceFurther.

(** ** Further properties of name resolution *)

Section NameResolutionFurther.

Variable X : Externals.
Variable h : Heap.
Variable importLookup : ImportLookup.

Lemma truthy_Some_nonempty (v : string) : v <> "" -> truthy (Some v) = Some v.
Proof. intros Hne. unfold truthy. by destruct (String.eqb_spec v ""). Qed.

Lemma deref_alloc_new d : deref (alloc h d).2 (nextRef h) = d.
Proof. simpl. by rewrite decide_True. Qed.

Lemma deref_alloc_old d r : r <> nextRef h -> deref (alloc h d).2 r = deref h r.
Proof. intros Hne. simpl. by rewrite decide_False. Qed.

(** The module-name branch: the parent of the name is a module name. *)
Lemma getDeclarationsForNameNode_module_name node parentId nameParts :
  parent (tree X node) = Some parentId ->
  shape (tree X parentId) = ModuleNameNode nameParts ->
  getDeclarationsForNameNode X h node importLookup =
  match findIndex node nameParts, getImportInfo X parentId with
  | Some namePartIndex, Some importInfo =>
      match resolvedPaths importInfo !! namePartIndex with
      | Some resolvedPath =>
          match truthy (Some resolvedPath) with
          | Some resolvedPath =>
              (Some [nextRef h],
               (alloc h (mkDeclaration (AliasDeclaration None None ∅)
                           (Some resolvedPath) getEmptyRange)).2)
          | None => (Some [], h)
          end
      | None => (Some [], h)
      end
  | _, _ => (Some [], h)
  end.
Proof.
  intros Hparent Hshape. unfold getDeclarationsForNameNode.
  rewrite Hparent. simpl. rewrite Hshape. by repeat case_match.
Qed.

(** X14: for a part of a dotted module name whose path the import
    resolution has, name resolution returns one declaration, a new alias
    object for that path, without symbol name, implicit imports or source
    range; every other declaration of the store is as before; the new alias
    resolves to itself without any lookup, and its inferred type is the
    module that [importLookup] has for the path, with no loader field, or
    Unknown when the lookup fails. *)
Theorem module_name_part_gets_new_alias
    node parentId nameParts namePartIndex importInfo resolvedPath :
  parent (tree X node) = Some parentId ->
  shape (tree X parentId) = ModuleNameNode nameParts ->
  findIndex node nameParts = Some namePartIndex ->
  getImportInfo X parentId = Some importInfo ->
  resolvedPaths importInfo !! namePartIndex = Some resolvedPath ->
  resolvedPath <> "" ->
  exists h',
    getDeclarationsForNameNode X h node importLookup = (Some [nextRef h], h')
    /\ deref h' (nextRef h)
       = mkDeclaration (AliasDeclaration None None ∅) (Some resolvedPath) getEmptyRange
    /\ (forall r, r <> nextRef h -> deref h' r = deref h r)
    /\ nextRef h' = S (nextRef h)
    /\ (forall fuel,
          resolveAliasDeclaration X h' importLookup (S fuel) (nextRef h)
          = Some (mkRun (Some (nextRef h)) 1 [] false))
    /\ (forall fuel,
          getInferredTypeOfDeclaration X h' (S fuel) (nextRef h) importLookup
          = Some (Normal (Some match importLookup resolvedPath with
                               | Some res =>
                                   ModuleTy (symbolTable res) ∅ (ilr_docString res)
                               | None => UnknownTy
                               end))).
Proof.
  intros Hparent Hshape Hindex Hinfo Hpath Hne.
  rewrite (getDeclarationsForNameNode_module_name _ _ _ Hparent Hshape).
  rewrite Hindex, Hinfo, Hpath, (truthy_Some_nonempty _ Hne).
  set (aliasDeclaration :=
         mkDeclaration (AliasDeclaration None None ∅) (Some resolvedPath) getEmptyRange).
  exists (alloc h aliasDeclaration).2.
  pose proof (deref_alloc_new aliasDeclaration) as Hnew.
  assert (Hresolve : forall fuel,
            resolveAliasDeclaration X (alloc h aliasDeclaration).2 importLookup
              (S fuel) (nextRef h)
            = Some (mkRun (Some (nextRef h)) 1 [] false)).
  { intros fuel. apply loop_terminal. right. unfold symbolName. by rewrite Hnew. }
  split_and!; [done | done | apply deref_alloc_old | done | done |].
  intros fuel. unfold getInferredTypeOfDeclaration.
  rewrite Hresolve. cbn [mbind option_bind value]. rewrite Hnew.
  unfold aliasDeclaration. cbn [kind truthy].
  unfold loaderActionsOf, ModuleType.create.
  rewrite applyLoaderActions_cases. cbn [la_path la_implicitImports path kind].
  rewrite (truthy_Some_nonempty _ Hne).
  destruct (importLookup resolvedPath); [|done].
  by rewrite fmap_empty, (left_id_L ∅ (∪)).
Qed.

(** X15: name resolution never changes a declaration of the store: the
    store it returns agrees with the one it was given on every address but
    the next free one, and it allocates at most one declaration. *)
Theorem name_resolution_keeps_declarations node :
  (forall r,
     r <> nextRef h ->
     deref (getDeclarationsForNameNode X h node importLookup).2 r = deref h r)
  /\ (nextRef (getDeclarationsForNameNode X h node importLookup).2 = nextRef h
      \/ nextRef (getDeclarationsForNameNode X h node importLookup).2
         = S (nextRef h)).
Proof.
  unfold getDeclarationsForNameNode.
  split; [intros r Hne |];
    repeat (case_match; cbn [snd fst alloc deref nextRef]);
    try done; try (by left); try (by right); by rewrite decide_False.
Qed.

(** X16: a part of a module name for which the import resolution has no
    path (no import information, no entry at the index of the part, or an
    empty path, as for a namespace package) resolves to the empty list of
    declarations, not to absent, and the store is left as it is. *)
Theorem module_name_part_without_path node parentId nameParts :
  parent (tree X node) = Some parentId ->
  shape (tree X parentId) = ModuleNameNode nameParts ->
  getImportInfo X parentId = None
  \/ (exists importInfo namePartIndex,
        getImportInfo X parentId = Some importInfo
        /\ findIndex node nameParts = Some namePartIndex
        /\ (resolvedPaths importInfo !! namePartIndex = None
            \/ resolvedPaths importInfo !! namePartIndex = Some "")) ->
  getDeclarationsForNameNode X h node importLookup = (Some [], h).
Proof.
  intros Hparent Hshape Hmiss.
  rewrite (getDeclarationsForNameNode_module_name _ _ _ Hparent Hshape).
  destruct Hmiss as [-> | (importInfo & namePartIndex & -> & -> & [-> | ->])].
  - by destruct (findIndex node nameParts).
  - done.
  - done.
Qed.

(** X17: for a name that is neither the source name of an aliased import,
    nor the member of a member access, nor part of a module name, name
    resolution asks the scope of the node: it returns all the declarations
    of the symbol found, the typed and the untyped ones alike, absent when
    the scopes have no such symbol, and the empty list when the node has no
    scope. *)
Theorem plain_identifier_gets_all_declarations node :
  (forall parentId,
     parent (tree X node) = Some parentId ->
     match shape (tree X parentId) with
     | ImportFromAsNode name (Some _) => name <> node
     | MemberAccessNode _ memberName => memberName <> node
     | ModuleNameNode _ => False
     | _ => True
     end) ->
  getDeclarationsForNameNode X h node importLookup =
  match getScopeForNode X node with
  | Some scope =>
      match lookUpSymbolRecursive X scope (nameTokenValue (tree X node)) with
      | Some symbolInScope => (Some (getDeclarations (sws_symbol symbolInScope)), h)
      | None => (None, h)
      end
  | None => (Some [], h)
  end.
Proof.
  intros Hplain. unfold getDeclarationsForNameNode.
  destruct (parent (tree X node)) as [parentId|] eqn:Hparent; simpl.
  - specialize (Hplain parentId eq_refl).
    destruct (shape (tree X parentId)) as [| md al' | nm [al|] | le mn | | | | | |];
      try done.
    + rewrite bool_decide_eq_false_2 by done. done.
    + rewrite bool_decide_eq_false_2 by done. done.
  - done.
Qed.

End NameResolutionFurther.

(** ** Properties of the hover provider *)

Section HoverProperties.

Variable X : Externals.
Variable HX : HoverExternals.

(** Nothing, or one part of program text followed by documentation. *)
#[local] Abbreviation shaped ps :=
  (ps = [] \/ exists first docs,
                ps = first :: docs /\ python first = true
                /\ Forall (fun part => python part = false) docs).

Lemma addDocumentationPartForType_docs type_ : forall parts,
  exists docs,
    _addDocumentationPartForType HX parts type_ = parts ++ docs
    /\ Forall (fun part => python part = false) docs.
Proof.
  assert (Hone : forall parts (docString : option string),
            exists docs,
              match truthy docString with
              | Some docString => _addResultsPart parts docString false
              | None => parts
              end = parts ++ docs
              /\ Forall (fun part => python part = false) docs).
  { intros parts docString. destruct (truthy docString) as [v|].
    - exists [mkHoverTextPart false v]. split; [done |]. by repeat constructor.
    - exists []. by rewrite app_nil_r. }
  destruct type_ as [| | | |overloads| |]; intros parts; simpl;
    try (exists []; by rewrite app_nil_r); try apply Hone.
  revert parts. induction overloads as [|overload overloads IH]; intros parts; simpl.
  - exists []. by rewrite app_nil_r.
  - destruct (Hone parts (getDocString HX overload)) as (docs1 & -> & Hdocs1).
    destruct (IH (parts ++ docs1)) as (docs2 & -> & Hdocs2).
    exists (docs1 ++ docs2). split; [by rewrite app_assoc |].
    by apply Forall_app.
Qed.

Lemma addDocumentationPart_docs parts node :
  exists docs,
    _addDocumentationPart X HX parts node = parts ++ docs
    /\ Forall (fun part => python part = false) docs.
Proof.
  unfold _addDocumentationPart. destruct (_getTypeFromNode X node) as [type_|].
  - apply addDocumentationPartForType_docs.
  - exists []. by rewrite app_nil_r.
Qed.

Lemma labelled_shaped node label withTypeText :
  shaped (labelled X HX [] node label withTypeText).
Proof.
  unfold labelled. case_bool_decide; [|by left]. right.
  destruct (addDocumentationPart_docs
              (_addResultsPart [] (String.append label
                 (String.append (nameTokenValue (tree X node))
                    (if withTypeText then _getTypeText X HX node else ""))) true)
              node) as (docs & -> & Hdocs).
  by eexists _, docs.
Qed.

Lemma addResultsForDeclaration_shaped h fuel declaration node importLookup ps :
  _addResultsForDeclaration X HX h fuel [] declaration node importLookup
  = Some (Normal ps) ->
  shaped ps.
Proof.
  unfold _addResultsForDeclaration.
  destruct (resolveAliasDeclaration X h importLookup fuel declaration) as [run|];
    [|done].
  cbn [mbind option_bind]. intros [= Hps]. revert Hps.
  destruct (value run) as [resolved|].
  - destruct (kind (deref h resolved));
      try (intros [= <-]; first [by left | apply labelled_shaped]).
    destruct (getTypeForDeclaration X (deref h resolved)); [|done].
    cbn. intros [= <-]. apply labelled_shaped.
  - case_bool_decide; intros [= <-]; [|by left].
    right. eexists _, []. by split_and!.
Qed.

(** X18: the hover provider gives a result only for a name node; the
    result has at least one part, its first part is program text and the
    parts after it are documentation, and its range is the range of the
    node. *)
Theorem hover_result_shape h fuel parseResults position importLookup results :
  getHoverForPosition X HX h fuel parseResults position importLookup
  = Some (Normal (Some results)) ->
  (exists first docs,
     parts results = first :: docs
     /\ python first = true
     /\ Forall (fun part => python part = false) docs)
  /\ exists offset node,
       convertPositionToOffset HX position (tokenizerLines parseResults) = Some offset
       /\ findNodeByOffset HX (parseTree parseResults) offset = Some node
       /\ nodeType (tree X node) = ParseNodeType.Name
       /\ hr_range results
          = mkRange
              (convertOffsetToPosition HX (nodeStart HX node)
                 (tokenizerLines parseResults))
              (convertOffsetToPosition HX (getEnd HX node)
                 (tokenizerLines parseResults)).
Proof.
  unfold getHoverForPosition.
  destruct (convertPositionToOffset HX position (tokenizerLines parseResults))
    as [offset|] eqn:Hoffset; [|done].
  destruct (findNodeByOffset HX (parseTree parseResults) offset)
    as [node|] eqn:Hnode; [|done].
  match goal with
  | |- (?added ≫= _) = _ -> _ =>
      assert (Hadded : forall ps, added = Some (Normal ps) ->
                (nodeType (tree X node) = ParseNodeType.Name \/ ps = [])
                /\ shaped ps);
      [| destruct added as [[ps|]|]; [| done | done] ]
  end.
  - intros ps. case_bool_decide as Hname;
      [|intros [= <-]; split; [by right | by left]].
    destruct (getDeclarationsForNameNode X h node importLookup)
      as [[[|declaration rest]|] h'].
    + split; [by left |]. revert H. repeat case_match; intros [= <-]; try by left.
      * right. destruct (addDocumentationPart_docs
                  (_addResultsPart [] (String.append (nameTokenValue (tree X node))
                                         (_getTypeText X HX node)) true) node)
          as (docs & -> & Hdocs). by eexists _, docs.
      * right. destruct (addDocumentationPart_docs
                  (_addResultsPart [] (String.append (nameTokenValue (tree X node))
                                         (_getTypeText X HX node)) true) node)
          as (docs & -> & Hdocs). by eexists _, docs.
    + split; [by left |]. by apply addResultsForDeclaration_shaped in H.
    + split; [by left |]. revert H. repeat case_match; intros [= <-]; try by left.
      * right. destruct (addDocumentationPart_docs
                  (_addResultsPart [] (String.append (nameTokenValue (tree X node))
                                         (_getTypeText X HX node)) true) node)
          as (docs & -> & Hdocs). by eexists _, docs.
      * right. destruct (addDocumentationPart_docs
                  (_addResultsPart [] (String.append (nameTokenValue (tree X node))
                                         (_getTypeText X HX node)) true) node)
          as (docs & -> & Hdocs). by eexists _, docs.
  - cbn. destruct (Hadded ps eq_refl) as [Hname Hshape].
    case_bool_decide as Hlen; intros [= <-]; simpl.
    destruct Hshape as [-> | Hshape]; [simpl in Hlen; lia |].
    split; [done |]. exists offset, node.
    destruct Hname as [Hname | ->]; [by split_and! | simpl in Hlen; lia].
Qed.

(** The result for a list of parts: none when the list is empty. *)
#[local] Abbreviation finish parseResults node ps :=
  (if bool_decide (0 < length ps)
   then Some (mkHoverResults ps
                (mkRange
                   (convertOffsetToPosition HX (nodeStart HX node)
                      (tokenizerLines parseResults))
                   (convertOffsetToPosition HX (getEnd HX node)
                      (tokenizerLines parseResults))))
   else None).

(** The hover for a name with at least one declaration. *)
Lemma hover_with_declaration
    h fuel parseResults position importLookup offset node declaration rest h' :
  convertPositionToOffset HX position (tokenizerLines parseResults) = Some offset ->
  findNodeByOffset HX (parseTree parseResults) offset = Some node ->
  nodeType (tree X node) = ParseNodeType.Name ->
  getDeclarationsForNameNode X h node importLookup = (Some (declaration :: rest), h') ->
  getHoverForPosition X HX h fuel parseResults position importLookup =
  completion ← _addResultsForDeclaration X HX h' fuel [] declaration node importLookup;
  Some (ps ← completion; Normal (finish parseResults node ps)).
Proof.
  intros Hoffset Hnode Hname Hdecls. unfold getHoverForPosition.
  rewrite Hoffset, Hnode, Hdecls. by rewrite bool_decide_eq_true_2.
Qed.

Lemma labelled_name node label withTypeText :
  nodeType (tree X node) = ParseNodeType.Name ->
  exists docs,
    labelled X HX [] node label withTypeText
    = mkHoverTextPart true
        (String.append label
           (String.append (nameTokenValue (tree X node))
              (if withTypeText then _getTypeText X HX node else ""))) :: docs
    /\ Forall (fun part => python part = false) docs.
Proof.
  intros Hname. unfold labelled. rewrite bool_decide_eq_true_2 by done.
  destruct (addDocumentationPart_docs
              (_addResultsPart [] (String.append label
                 (String.append (nameTokenValue (tree X node))
                    (if withTypeText then _getTypeText X HX node else ""))) true)
              node) as (docs & -> & Hdocs).
  by exists docs.
Qed.

(** X19: when the first declaration of the name resolves to a built-in
    declaration, the hover provider gives no result at all: the kind has no
    label, and the plain text for names without declaration is not used
    either. *)
Theorem hover_is_silent_on_builtins
    h fuel parseResults position importLookup offset node declaration rest h'
    run resolved declaredType :
  convertPositionToOffset HX position (tokenizerLines parseResults) = Some offset ->
  findNodeByOffset HX (parseTree parseResults) offset = Some node ->
  nodeType (tree X node) = ParseNodeType.Name ->
  getDeclarationsForNameNode X h node importLookup = (Some (declaration :: rest), h') ->
  resolveAliasDeclaration X h' importLookup fuel declaration = Some run ->
  value run = Some resolved ->
  kind (deref h' resolved) = BuiltInDeclaration declaredType ->
  getHoverForPosition X HX h fuel parseResults position importLookup
  = Some (Normal None).
Proof.
  intros Hoffset Hnode Hname Hdecls Hrun Hval Hkind.
  rewrite (hover_with_declaration _ _ _ _ _ _ _ _ _ _ Hoffset Hnode Hname Hdecls).
  unfold _addResultsForDeclaration. rewrite Hrun. cbn [mbind option_bind].
  by rewrite Hval, Hkind.
Qed.

(** X20: when the first declaration of the name resolves to a variable, a
    parameter, a class, a function or a module alias, the first part of the
    hover is the label of that kind followed by the name, and by the text of
    the type attached to the node except for a class and a module; the
    documentation parts follow; the other declarations of the name play no
    part. *)
Theorem hover_labels_resolved_declaration
    h fuel parseResults position importLookup offset node declaration rest h'
    run resolved label withTypeText :
  convertPositionToOffset HX position (tokenizerLines parseResults) = Some offset ->
  findNodeByOffset HX (parseTree parseResults) offset = Some node ->
  nodeType (tree X node) = ParseNodeType.Name ->
  getDeclarationsForNameNode X h node importLookup = (Some (declaration :: rest), h') ->
  resolveAliasDeclaration X h' importLookup fuel declaration = Some run ->
  value run = Some resolved ->
  hoverLabel (kind (deref h' resolved)) = Some (label, withTypeText) ->
  exists docs,
    getHoverForPosition X HX h fuel parseResults position importLookup
    = Some (Normal (Some (mkHoverResults
         (mkHoverTextPart true
            (String.append label
               (String.append (nameTokenValue (tree X node))
                  (if withTypeText then _getTypeText X HX node else ""))) :: docs)
         (mkRange
            (convertOffsetToPosition HX (nodeStart HX node)
               (tokenizerLines parseResults))
            (convertOffsetToPosition HX (getEnd HX node)
               (tokenizerLines parseResults))))))
    /\ Forall (fun part => python part = false) docs.
Proof.
  intros Hoffset Hnode Hname Hdecls Hrun Hval Hlabel.
  rewrite (hover_with_declaration _ _ _ _ _ _ _ _ _ _ Hoffset Hnode Hname Hdecls).
  unfold _addResultsForDeclaration. rewrite Hrun. cbn [mbind option_bind].
  rewrite Hval.
  destruct (labelled_name node label withTypeText Hname) as (docs & Hparts & Hdocs).
  exists docs. split; [|done].
  destruct (kind (deref h' resolved)) as [| | | | |? ? isConstant|];
    try done; injection Hlabel as <- <-; try (by cbn; rewrite Hparts).
  destruct isConstant; cbn [mret].
  - change (String.append "(" (String.append "constant" ") ")) with "(constant) ".
    by rewrite Hparts.
  - change (String.append "(" (String.append "variable" ") ")) with "(variable) ".
    by rewrite Hparts.
Qed.

(** X21: when the alias resolution of the first declaration returns
    absent, the hover is the single part "(import) ", the name and the text
    of the type attached to the node; no documentation part is added. *)
Theorem hover_on_unresolved_import
    h fuel parseResults position importLookup offset node declaration rest h' run :
  convertPositionToOffset HX position (tokenizerLines parseResults) = Some offset ->
  findNodeByOffset HX (parseTree parseResults) offset = Some node ->
  nodeType (tree X node) = ParseNodeType.Name ->
  getDeclarationsForNameNode X h node importLookup = (Some (declaration :: rest), h') ->
  resolveAliasDeclaration X h' importLookup fuel declaration = Some run ->
  value run = None ->
  getHoverForPosition X HX h fuel parseResults position importLookup
  = Some (Normal (Some (mkHoverResults
       [mkHoverTextPart true
          (String.append "(import) "
             (String.append (nameTokenValue (tree X node)) (_getTypeText X HX node)))]
       (mkRange
          (convertOffsetToPosition HX (nodeStart HX node)
             (tokenizerLines parseResults))
          (convertOffsetToPosition HX (getEnd HX node)
             (tokenizerLines parseResults)))))).
Proof.
  intros Hoffset Hnode Hname Hdecls Hrun Hval.
  rewrite (hover_with_declaration _ _ _ _ _ _ _ _ _ _ Hoffset Hnode Hname Hdecls).
  unfold _addResultsForDeclaration. rewrite Hrun. cbn [mbind option_bind].
  rewrite Hval. by rewrite bool_decide_eq_true_2.
Qed.

(** X22: for a name without declaration, be it that name resolution
    returned absent or the empty list, the hover is the name and the text of
    the type attached to the node, followed by the documentation; but for a
    part of a module name there is no hover. *)
Theorem hover_without_declaration
    h fuel parseResults position importLookup offset node :
  convertPositionToOffset HX position (tokenizerLines parseResults) = Some offset ->
  findNodeByOffset HX (parseTree parseResults) offset = Some node ->
  nodeType (tree X node) = ParseNodeType.Name ->
  (getDeclarationsForNameNode X h node importLookup).1 = None
  \/ (getDeclarationsForNameNode X h node importLookup).1 = Some [] ->
  ((exists parentId,
      parent (tree X node) = Some parentId
      /\ nodeType (tree X parentId) = ParseNodeType.ModuleName) ->
   getHoverForPosition X HX h fuel parseResults position importLookup
   = Some (Normal None))
  /\ ((forall parentId,
         parent (tree X node) = Some parentId ->
         nodeType (tree X parentId) <> ParseNodeType.ModuleName) ->
      exists docs,
        getHoverForPosition X HX h fuel parseResults position importLookup
        = Some (Normal (Some (mkHoverResults
             (mkHoverTextPart true
                (String.append (nameTokenValue (tree X node))
                   (_getTypeText X HX node)) :: docs)
             (mkRange
                (convertOffsetToPosition HX (nodeStart HX node)
                   (tokenizerLines parseResults))
                (convertOffsetToPosition HX (getEnd HX node)
                   (tokenizerLines parseResults))))))
        /\ Forall (fun part => python part = false) docs).
Proof.
  intros Hoffset Hnode Hname Hnone.
  assert (Hhover :
    getHoverForPosition X HX h fuel parseResults position importLookup =
    Some (Normal
            (finish parseResults node
               (if negb match parent (tree X node) with
                        | Some parentId =>
                            bool_decide (nodeType (tree X parentId)
                                         = ParseNodeType.ModuleName)
                        | None => false
                        end
                then _addDocumentationPart X HX
                       (_addResultsPart []
                          (String.append (nameTokenValue (tree X node))
                             (_getTypeText X HX node)) true) node
                else [])))).
  { unfold getHoverForPosition. rewrite Hoffset, Hnode.
    rewrite bool_decide_eq_true_2 by done.
    destruct (getDeclarationsForNameNode X h node importLookup) as [ds h'].
    simpl in Hnone. destruct Hnone as [-> | ->]; by destruct (negb _). }
  rewrite Hhover. split.
  - intros (parentId & -> & Hmodule). by rewrite (bool_decide_eq_true_2 _ Hmodule).
  - intros Hother.
    assert (match parent (tree X node) with
            | Some parentId =>
                bool_decide (nodeType (tree X parentId) = ParseNodeType.ModuleName)
            | None => false
            end = false) as ->.
    { destruct (parent (tree X node)) as [parentId|]; [|done].
      apply bool_decide_eq_false_2. by apply Hother. }
    cbn [negb].
    destruct (addDocumentationPart_docs
                (_addResultsPart [] (String.append (nameTokenValue (tree X node))
                                       (_getTypeText X HX node)) true) node)
      as (docs & Hparts & Hdocs).
    exists docs. split; [|done]. by rewrite Hparts.
Qed.

End HoverProperties.

(** *** The further properties on the sample programs *)

Lemma resolveAliasDeclaration_follows_chain_witness :
  chain noExternals twinHeap twinLookup 0 [1; 2; 3; 4]
  /\ isTerminal (deref twinHeap (List.last [1; 2; 3; 4] 0))
  /\ exists run,
       resolveAliasDeclaration noExternals twinHeap twinLookup 5 0 = Some run
       /\ value run = Some 4
       /\ iterations run = 5
       /\ length (lookups run) <= 4
       /\ cycleDetected run = false.
Proof.
  assert (Hchain : chain noExternals twinHeap twinLookup 0 [1; 2; 3; 4])
    by (vm_compute; done).
  assert (Hterm : isTerminal (deref twinHeap (List.last [1; 2; 3; 4] 0)))
    by (left; vm_compute; done).
  split_and!; [done | done |].
  refine (resolveAliasDeclaration_follows_chain noExternals twinHeap twinLookup
            0 [1; 2; 3; 4] 5 Hchain Hterm _).
  simpl. lia.
Defined.

Lemma failed_lookup_ends_resolution_witness :
  submoduleFallback_present submoduleHeap 0
  /\ exists run,
       resolveAliasDeclaration noExternals submoduleHeap (fun _ => None) 1 0 = Some run
       /\ value run = None
       /\ iterations run = 1
       /\ last (lookups run) = Some "pkg/__init__"
       /\ cycleDetected run = false.
Proof.
  split; [by vm_compute |].
  refine (failed_lookup_ends_resolution noExternals submoduleHeap (fun _ => None)
            0 [] (Some "sub") (Some 1) ∅ "sub" "pkg/__init__" 1 _ _ _ _ _ _);
    by vm_compute.
Defined.


Lemma one_lookup_per_iteration_witness :
  resolveAliasDeclaration noExternals twinHeap twinLookup 5 0
  = Some (mkRun (Some 4) 5 ["p"; "q"; "r"; "q"] false)
  /\ 1 <= 5 /\ length ["p"; "q"; "r"; "q"] <= 5.
Proof.
  assert (Hrun : resolveAliasDeclaration noExternals twinHeap twinLookup 5 0
                 = Some (mkRun (Some 4) 5 ["p"; "q"; "r"; "q"] false))
    by (vm_compute; done).
  split; [done |].
  exact (one_lookup_per_iteration noExternals twinHeap twinLookup 5 0 _ Hrun).
Defined.

Lemma cycle_result_names_symbol_witness :
  resolveAliasDeclaration noExternals lassoHeap lassoLookup 4 0
  = Some (mkRun (Some 0) 3 ["m"; "m"; "m"] true)
  /\ exists r, Some 0 = Some r /\ namesSymbol lassoHeap r.
Proof.
  assert (Hrun : resolveAliasDeclaration noExternals lassoHeap lassoLookup 4 0
                 = Some (mkRun (Some 0) 3 ["m"; "m"; "m"] true))
    by (vm_compute; done).
  split; [done |].
  exact (cycle_result_names_symbol noExternals lassoHeap lassoLookup 4 0 _
           Hrun eq_refl).
Defined.

Lemma inferred_type_after_cycle_witness :
  resolveAliasDeclaration noExternals lassoHeap lassoLookup 4 0
  = Some (mkRun (Some 0) 3 ["m"; "m"; "m"] true)
  /\ getInferredTypeOfDeclaration noExternals lassoHeap 4 0 lassoLookup
     = Some (Normal None).
Proof.
  assert (Hrun : resolveAliasDeclaration noExternals lassoHeap lassoLookup 4 0
                 = Some (mkRun (Some 0) 3 ["m"; "m"; "m"] true))
    by (vm_compute; done).
  split; [done |].
  destruct (inferred_type_after_cycle noExternals lassoHeap lassoLookup 4 0 _
              Hrun eq_refl) as (r & sn & fallback & imps & Hval & Hkind & ->).
  injection Hval as <-. vm_compute in Hkind. by injection Hkind as <- <- <-.
Defined.

Lemma untyped_declaration_has_no_type_witness :
  hasTypeForDeclaration noExternals (variableIn "m" 10 None (at_ 1 0)) = false
  /\ getTypeForDeclaration noExternals (variableIn "m" 10 None (at_ 1 0))
     = Normal None.
Proof.
  split; [done |].
  exact (untyped_declaration_has_no_type noExternals
           (variableIn "m" 10 None (at_ 1 0)) eq_refl).
Defined.

Lemma transform_returns_given_or_enum_instance_witness :
  transformTypeForPossibleEnumClass sampleExternals 200 (ClassTy (classNamed "int"))
  = Normal (ObjectTy (classNamed "Color"))
  /\ (ObjectTy (classNamed "Color") = ClassTy (classNamed "int")
      \/ exists classNode enumClass,
           getEnclosingClass sampleExternals 200 true = Some classNode
           /\ getExpressionType sampleExternals classNode = Some (ClassTy enumClass)
           /\ ObjectTy (classNamed "Color") = ObjectTy enumClass
           /\ isEnumClass sampleExternals enumClass = true
           /\ (isBuiltIn sampleExternals enumClass = false
               \/ cd_name (details enumClass) ∉ builtInEnumClasses)).
Proof.
  assert (Hrun : transformTypeForPossibleEnumClass sampleExternals 200
                   (ClassTy (classNamed "int"))
                 = Normal (ObjectTy (classNamed "Color"))) by (vm_compute; done).
  split; [done |].
  exact (transform_returns_given_or_enum_instance sampleExternals 200 _ _ Hrun).
Defined.

Lemma enum_transform_throws_iff_witness :
  transformTypeForPossibleEnumClass untypedClassProgram 2 (ClassTy (classNamed "int"))
  = Throw
  /\ getTypeForDeclaration untypedClassProgram (variableIn "m" 5 (Some 2) (at_ 1 4))
     = Throw.
Proof.
  destruct (enum_transform_throws_iff untypedClassProgram 2
              (ClassTy (classNamed "int"))) as [Htransform Hdeclaration].
  assert (Hthrow : transformTypeForPossibleEnumClass untypedClassProgram 2
                     (ClassTy (classNamed "int")) = Throw).
  { apply Htransform. exists 1. split; [done |]. intros classType. by vm_compute. }
  split; [done |].
  by apply (Hdeclaration (variableIn "m" 5 (Some 2) (at_ 1 4)) 5 (Some 2) false).
Defined.

Lemma areDeclarationsSame_equivalence_witness :
  areDeclarationsSame (deref twinHeap 1) (deref twinHeap 3) = true
  /\ areDeclarationsSame (deref twinHeap 3) (deref twinHeap 1) = true
  /\ areDeclarationsSame (deref twinHeap 1) (deref twinHeap 2) = false.
Proof.
  destruct areDeclarationsSame_equivalence as (Hiff & _ & Hsym & _).
  split_and!.
  - by apply Hiff.
  - rewrite Hsym. by apply Hiff.
  - by vm_compute.
Defined.


Lemma unknown_iff_own_lookup_fails_witness :
  pkgLookup "gone" = None
  /\ _applyLoaderActionsToModuleType pkgLookup (ModuleTy ∅ ∅ None)
       (loaderActionsOf (deref pkgHeap 1)) = UnknownTy.
Proof.
  split; [by vm_compute |].
  apply (unknown_iff_own_lookup_fails pkgLookup).
  exists "gone". split; by vm_compute.
Defined.

Lemma loader_fields_are_merged_witness :
  _applyLoaderActionsToModuleType pkgLookup
    (ModuleTy ∅ {[ "old" := symbolOf [1]; "sub" := symbolOf [2] ]} None)
    (mkModuleLoaderActions None {[ "sub" := mkModuleLoaderActions None ∅ ]})
  = ModuleTy ∅
      {[ "old" := symbolOf [1];
         "sub" := createWithType SymbolFlags.None_ (ModuleTy ∅ ∅ None) ]} None
  /\ ({[ "old" := symbolOf [1];
        "sub" := createWithType SymbolFlags.None_ (ModuleTy ∅ ∅ None) ]}
        : gmap string Symbol) !! "old"
     = Some (symbolOf [1]).
Proof.
  assert (Hrun : _applyLoaderActionsToModuleType pkgLookup
            (ModuleTy ∅ {[ "old" := symbolOf [1]; "sub" := symbolOf [2] ]} None)
            (mkModuleLoaderActions None {[ "sub" := mkModuleLoaderActions None ∅ ]})
          = ModuleTy ∅
              {[ "old" := symbolOf [1];
                 "sub" := createWithType SymbolFlags.None_ (ModuleTy ∅ ∅ None) ]}
              None) by (vm_compute; done).
  split; [done |].
  rewrite (proj1 (loader_fields_are_merged pkgLookup _ _ _ _ _ _ _ Hrun) "old").
  by vm_compute.
Defined.

Lemma module_name_part_gets_new_alias_witness :
  exists h',
    getDeclarationsForNameNode hoverProgram hoverHeap 408 hoverLookup = (Some [5], h')
    /\ deref h' 5
       = mkDeclaration (AliasDeclaration None None ∅) (Some "pkg/sub") getEmptyRange
    /\ deref h' 3 = deref hoverHeap 3
    /\ getInferredTypeOfDeclaration hoverProgram h' 1 5 hoverLookup
       = Some (Normal (Some (ModuleTy {[ "y" := symbolOf [0] ]} ∅
                                      (Some "The submodule.")))).
Proof.
  destruct (module_name_part_gets_new_alias hoverProgram hoverHeap hoverLookup
              408 409 [407; 408] 1 (mkImportResult ["pkg/__init__"; "pkg/sub"])
              "pkg/sub" eq_refl eq_refl eq_refl eq_refl eq_refl)
    as (h' & Hdecls & Hnew & Hold & _ & _ & Htype); [done |].
  exists h'. split_and!; [done | done | by apply Hold |].
  rewrite Htype. by vm_compute.
Defined.

Lemma name_resolution_keeps_declarations_witness :
  deref (getDeclarationsForNameNode hoverProgram hoverHeap 408 hoverLookup).2 4
  = deref hoverHeap 4.
Proof.
  by apply (proj1 (name_resolution_keeps_declarations hoverProgram hoverHeap
                     hoverLookup 408)).
Defined.

Lemma module_name_part_without_path_witness :
  getImportInfo hoverProgram 406 = Some (mkImportResult [""])
  /\ getDeclarationsForNameNode hoverProgram hoverHeap 405 hoverLookup
     = (Some [], hoverHeap).
Proof.
  split; [done |].
  apply (module_name_part_without_path hoverProgram hoverHeap hoverLookup
           405 406 [405] eq_refl eq_refl).
  right. exists (mkImportResult [""]), 0. split_and!; [done | done | by right].
Defined.

Lemma plain_identifier_gets_all_declarations_witness :
  getDeclarationsForNameNode hoverProgram hoverHeap 403 hoverLookup
  = (Some [4; 3], hoverHeap)
  /\ getTypedDeclarations hoverProgram hoverHeap (symbolOf [4; 3]) = [3].
Proof.
  split; [|by vm_compute].
  rewrite (plain_identifier_gets_all_declarations hoverProgram hoverHeap hoverLookup
             403); [by vm_compute |].
  intros parentId. by vm_compute.
Defined.

Lemma hover_result_shape_witness :
  getHoverForPosition hoverProgram hoverHelpers hoverHeap 5 hoverParse
    (mkPosition 0 403) hoverLookup
  = Some (Normal (Some (mkHoverResults
                          [mkHoverTextPart true "(class) C";
                           mkHoverTextPart false "A class."]
                          (mkRange (mkPosition 0 403) (mkPosition 0 404)))))
  /\ exists first docs,
       [mkHoverTextPart true "(class) C"; mkHoverTextPart false "A class."]
       = first :: docs
       /\ python first = true
       /\ Forall (fun part => python part = false) docs.
Proof.
  assert (Hrun : getHoverForPosition hoverProgram hoverHelpers hoverHeap 5 hoverParse
                   (mkPosition 0 403) hoverLookup
                 = Some (Normal (Some (mkHoverResults
                          [mkHoverTextPart true "(class) C";
                           mkHoverTextPart false "A class."]
                          (mkRange (mkPosition 0 403) (mkPosition 0 404))))))
    by (vm_compute; done).
  split; [done |].
  exact (proj1 (hover_result_shape hoverProgram hoverHelpers hoverHeap 5 hoverParse
                  (mkPosition 0 403) hoverLookup _ Hrun)).
Defined.

Lemma hover_is_silent_on_builtins_witness :
  kind (deref hoverHeap 1) = BuiltInDeclaration (Some (FunctionTy "len"))
  /\ getHoverForPosition hoverProgram hoverHelpers hoverHeap 5 hoverParse
       (mkPosition 0 401) hoverLookup
     = Some (Normal None).
Proof.
  split; [done |].
  refine (hover_is_silent_on_builtins hoverProgram hoverHelpers hoverHeap 5 hoverParse
            (mkPosition 0 401) hoverLookup 401 401 1 [] hoverHeap
            (mkRun (Some 1) 1 [] false) 1 (Some (FunctionTy "len")) _ _ _ _ _ _ _);
    by vm_compute.
Defined.

Lemma hover_labels_resolved_declaration_witness :
  resolveAliasDeclaration hoverProgram hoverHeap hoverLookup 5 4
  = Some (mkRun (Some 3) 2 ["lib"] false)
  /\ exists docs,
       getHoverForPosition hoverProgram hoverHelpers hoverHeap 5 hoverParse
         (mkPosition 0 403) hoverLookup
       = Some (Normal (Some (mkHoverResults
                               (mkHoverTextPart true "(class) C" :: docs)
                               (mkRange (mkPosition 0 403) (mkPosition 0 404)))))
       /\ Forall (fun part => python part = false) docs.
Proof.
  split; [by vm_compute |].
  refine (hover_labels_resolved_declaration hoverProgram hoverHelpers hoverHeap 5
            hoverParse (mkPosition 0 403) hoverLookup 403 403 4 [3] hoverHeap
            (mkRun (Some 3) 2 ["lib"] false) 3 "(class) " false _ _ _ _ _ _ _);
    by vm_compute.
Defined.

Lemma hover_on_unresolved_import_witness :
  resolveAliasDeclaration hoverProgram hoverHeap hoverLookup 5 2
  = Some (mkRun None 1 ["nowhere"] false)
  /\ getHoverForPosition hoverProgram hoverHelpers hoverHeap 5 hoverParse
       (mkPosition 0 402) hoverLookup
     = Some (Normal (Some (mkHoverResults
                             [mkHoverTextPart true "(import) gone: Unknown"]
                             (mkRange (mkPosition 0 402) (mkPosition 0 403))))).
Proof.
  split; [by vm_compute |].
  refine (hover_on_unresolved_import hoverProgram hoverHelpers hoverHeap 5 hoverParse
            (mkPosition 0 402) hoverLookup 402 402 2 [] hoverHeap
            (mkRun None 1 ["nowhere"] false) _ _ _ _ _ _);
    by vm_compute.
Defined.

Lemma hover_without_declaration_witness :
  (getDeclarationsForNameNode hoverProgram hoverHeap 405 hoverLookup).1 = Some []
  /\ getHoverForPosition hoverProgram hoverHelpers hoverHeap 5 hoverParse
       (mkPosition 0 405) hoverLookup
     = Some (Normal None)
  /\ (getDeclarationsForNameNode hoverProgram hoverHeap 410 hoverLookup).1 = None
  /\ exists docs,
       getHoverForPosition hoverProgram hoverHelpers hoverHeap 5 hoverParse
         (mkPosition 0 410) hoverLookup
       = Some (Normal (Some (mkHoverResults
                               (mkHoverTextPart true "free: Unknown" :: docs)
                               (mkRange (mkPosition 0 410) (mkPosition 0 411)))))
       /\ Forall (fun part => python part = false) docs.
Proof.
  split_and!; [by vm_compute | | by vm_compute |].
  - refine (proj1 (hover_without_declaration hoverProgram hoverHelpers hoverHeap 5
                     hoverParse (mkPosition 0 405) hoverLookup 405 405 _ _ _ _) _);
      [by vm_compute | by vm_compute | by vm_compute | right; by vm_compute |].
    exists 406. by vm_compute.
  - refine (proj2 (hover_without_declaration hoverProgram hoverHelpers hoverHeap 5
                     hoverParse (mkPosition 0 410) hoverLookup 410 410 _ _ _ _) _);
      [by vm_compute | by vm_compute | by vm_compute | left; by vm_compute |].
    intros parentId. by vm_compute.
Defined.
